(** * Remote query submission (extensions/ql-vscode/src/run-remote-query.ts)

    A shallow embedding of [findLanguage] and [runRemoteQuery] together
    with the properties of the one-shot submission flow: which
    collaborators are called, in which order, with which arguments, and
    what happens on each early exit.

    The two functions are [async] glue over external collaborators (the
    editor window, the file system, the YAML parser, the CodeQL CLI server,
    the credentials and the HTTP client).  A run is modelled as the list of
    collaborator calls it performs, in program order, together with its
    completion (normal return or a thrown value).  The collaborators are
    records of answers; every theorem quantifies over all of them. *)

From Stdlib Require Import String Ascii List Bool Arith ZArith Lia.
From ExtLib Require Import Structures.Monad Structures.MonadExc.
Import ListNotations.
Import MonadNotation.

Local Open Scope list_scope.
Local Open Scope string_scope.
Local Open Scope monad_scope.

(** ** JavaScript values used by the module *)

Module JS.

(** A thrown value.  Only its identity matters: the module never inspects
    an error, it only passes it on. *)
Inductive Error : Type :=
| mkError (message : string).

(** [s.length], as a JS number. *)
Definition length (s : string) : Z := Z.of_nat (String.length s).

(** [s.substring(start, end)]: both indices are clamped to
    [0 .. s.length] and swapped when [start > end]. *)
Definition substring (s : string) (start end_ : Z) : string :=
  let clamp := fun i => Z.max 0 (Z.min i (length s)) in
  let lo := Z.min (clamp start) (clamp end_) in
  let hi := Z.max (clamp start) (clamp end_) in
  String.substring (Z.to_nat lo) (Z.to_nat (hi - lo)) s.

(** [s.endsWith(search)]. *)
Definition endsWith (s search : string) : bool :=
  (length search <=? length s)%Z
  && String.eqb (substring s (length s - length search) (length s)) search.

(** Truthiness of a [string | undefined]: [undefined] and the empty
    string are falsy. *)
Definition truthy (v : option string) : bool :=
  match v with
  | Some s => negb (String.eqb s "")
  | None => false
  end.

(** [a || d] for [a : string | undefined] and a string [d]. *)
Definition orElse (a : option string) (d : string) : string :=
  match a with
  | Some s => if String.eqb s "" then d else s
  | None => d
  end.

(** An interpolated [${v}] of a [string | undefined]. *)
Definition interpolate (v : option string) : string :=
  match v with
  | Some s => s
  | None => "undefined"
  end.

(** A plain object used as a map: its own keys in enumeration order.
    The module never looks at the values. *)
Definition Object (V : Type) : Type := list (string * V).

Definition keys {V : Type} (o : Object V) : list string := map fst o.

(** [xs[0]]. *)
Definition first {A : Type} (xs : list A) : option A := nth_error xs 0.

End JS.

(** ** Data *)

(** [vscode.Uri], of which only [fsPath] is read. *)
Record Uri : Type := { fsPath : string }.

(** [interface Config]. *)
Record Config : Type := {
  repositories : list string;
  ref : option string;
  language : option string
}.

(** The [data] object of the request; its keys are [ref], [language],
    [repositories], [query] and [token]. *)
Record RequestData : Type := {
  data_ref : string;
  data_language : string;
  data_repositories : list string;
  data_query : string;
  data_token : string
}.

(** The second argument of [octokit.request]. *)
Record RequestParameters : Type := {
  owner : string;
  repo : string;
  data : RequestData
}.

(** The options object given to [window.showQuickPick]. *)
Record QuickPickOptions : Type := {
  placeHolder : string;
  ignoreFocusOut : bool
}.

(** The result of [cliServer.resolveQueryByLanguage]. *)
Record QueryInfo : Type := { byLanguage : JS.Object unit }.

(** The argument of [showAndLogErrorMessage]: a message text, or the caught
    value itself. *)
Inductive ErrorArgument : Type :=
| Text (message : string)
| Caught (error : JS.Error).

(** ** Runs *)

(** How an evaluation ends. *)
Inductive completion (A : Type) : Type :=
| Normal (value : A)
| Throw (error : JS.Error).

Arguments Normal {A} value.
Arguments Throw {A} error.

(** The calls a run makes on its collaborators, with their arguments. *)
Inductive event : Type :=
| GetOctokit
| GetToken
| ReadFile (path : string) (encoding : string)
| PathExists (path : string)
| SafeLoad (text : string)
| ResolveQueryByLanguage (folders : list string) (uri : Uri)
| ResolveLanguages
| ShowQuickPick (items : list string) (options : QuickPickOptions)
| Log (message : string)
| ShowAndLogErrorMessage (arg : ErrorArgument)
| ShowAndLogInformationMessage (message : string)
| Request (route : string) (parameters : RequestParameters).

(** An [async] computation: the calls made so far and the completion. *)
Definition Async (A : Type) : Type := (list event * completion A)%type.

Definition trace {A : Type} (m : Async A) : list event := fst m.
Definition result {A : Type} (m : Async A) : completion A := snd m.

#[export] Instance Monad_Async : Monad Async := {
  ret := fun _ a => ([], Normal a);
  bind := fun _ _ m f =>
    match m with
    | (t, Normal a) => let (t', r) := f a in ((t ++ t')%list, r)
    | (t, Throw e) => (t, Throw e)
    end
}.

(** [try { m } catch (e) { h e }]. *)
#[export] Instance MonadExc_Async : MonadExc JS.Error Async := {
  raise := fun _ e => ([], Throw e);
  catch := fun _ m h =>
    match m with
    | (t, Normal a) => (t, Normal a)
    | (t, Throw e) => let (t', r) := h e in ((t ++ t')%list, r)
    end
}.

(** [await f(args)]: the call is made, then it returns or throws. *)
Definition await {A : Type} (call : event) (answer : completion A) : Async A :=
  ([call], answer).

(** [void f(args)] on an [async] helper: the call is made; a rejection of
    the discarded promise does not reach the caller. *)
Definition fire (call : event) : Async unit := ([call], Normal tt).

(** ** Collaborators *)

(** [octokit.request], as far as the caller sees it. *)
Record Octokit : Type := {
  request : string -> RequestParameters -> completion unit
}.

(** [class Credentials] of [./authentication]. *)
Record Credentials : Type := {
  getOctokit : completion Octokit;
  getToken : completion string
}.

(** [class CodeQLCliServer] of [./cli]. *)
Record CodeQLCliServer : Type := {
  resolveQueryByLanguage : list string -> Uri -> completion QueryInfo;
  resolveLanguages : completion (JS.Object unit)
}.

(** The imported modules: [fs-extra], [js-yaml], [vscode.window] and
    [./helpers].  [yaml.safeLoad] yields [None] for [undefined] (an empty
    document); the cast [as Config] is taken at its word otherwise. *)
Record Host : Type := {
  readFile : string -> string -> completion string;
  pathExists : string -> completion bool;
  safeLoad : string -> completion (option Config);
  activeTextEditor : option Uri;
  showQuickPick : list string -> QuickPickOptions -> completion (option string);
  getOnDiskWorkspaceFolders : list string
}.

(** ** The module *)

Definition OWNER : string := "dsp-testing".
Definition REPO : string := "qc-controller".

Definition logger_log (message : string) : Async unit := fire (Log message).

Definition showAndLogErrorMessage (arg : ErrorArgument) : Async unit :=
  fire (ShowAndLogErrorMessage arg).

Definition showAndLogInformationMessage (message : string) : Async unit :=
  fire (ShowAndLogInformationMessage message).

(** The value thrown by a property read on [undefined]. *)
Definition TypeError (property : string) : JS.Error :=
  JS.mkError ("Cannot read property '" ++ property ++ "' of undefined").

Section Module_.

Variable host : Host.

(** The [try] block of [findLanguage].  [Some language] stands for
    [return language] from inside the block, [None] for falling out of
    the [catch]. *)
Definition autodetect (cliServer : CodeQLCliServer) (uri : Uri)
  : Async (option (option string)) :=
  catch
    (queryInfo <- await
       (ResolveQueryByLanguage (getOnDiskWorkspaceFolders host) uri)
       (resolveQueryByLanguage cliServer (getOnDiskWorkspaceFolders host) uri) ;;
     let language := JS.first (JS.keys (byLanguage queryInfo)) in
     logger_log ("Detected query language: " ++ JS.interpolate language) ;;
     ret (Some language))
    (fun _ =>
       logger_log "Could not autodetect query language. Select language manually." ;;
       ret None).

(** The rest of [findLanguage], after the [if (uri !== undefined)]. *)
Definition promptLanguage (cliServer : CodeQLCliServer) : Async (option string) :=
  languages <- await ResolveLanguages (resolveLanguages cliServer) ;;
  let availableLanguages := JS.keys languages in
  let options :=
    {| placeHolder := "Select target language for your query";
       ignoreFocusOut := true |} in
  language <- await (ShowQuickPick availableLanguages options)
                    (showQuickPick host availableLanguages options) ;;
  (if negb (JS.truthy language)
   then showAndLogErrorMessage
          (Text "Language not found. Language must be specified manually.")
   else ret tt) ;;
  ret language.

Definition findLanguage (cliServer : CodeQLCliServer) (queryUri : option Uri)
  : Async (option string) :=
  let uri := match queryUri with
             | Some u => Some u
             | None => activeTextEditor host
             end in
  returned <- match uri with
              | Some uri => autodetect cliServer uri
              | None => ret None
              end ;;
  match returned with
  | Some language => ret language
  | None => promptLanguage cliServer
  end.

(** [queryFile.substring(0, queryFile.length - '.ql'.length) + '.repositories'] *)
Definition repositoriesFileOf (queryFile : string) : string :=
  JS.substring queryFile 0 (JS.length queryFile - JS.length ".ql")
  ++ ".repositories".

Definition ROUTE : string :=
  "POST /repos/:owner/:repo/code-scanning/codeql/queries".

(** The [try]/[catch] at the end of [runRemoteQuery]. *)
Definition submit (octokit : Octokit) (d : RequestData) : Async unit :=
  let parameters := {| owner := OWNER; repo := REPO; data := d |} in
  catch
    (await (Request ROUTE parameters) (request octokit ROUTE parameters) ;;
     showAndLogInformationMessage
       ("Successfully scheduled runs. [Click here to see the progress](https://github.com/"
        ++ OWNER ++ "/" ++ REPO ++ "/actions)."))
    (fun error => showAndLogErrorMessage (Caught error)).

(** [!uri?.fsPath.endsWith('.ql')] *)
Definition rejected (uri : option Uri) : bool :=
  negb match uri with
       | Some u => JS.endsWith (fsPath u) ".ql"
       | None => false
       end.

Definition runRemoteQuery
  (cliServer : CodeQLCliServer) (credentials : Credentials) (uri : option Uri)
  : Async unit :=
  if rejected uri then ret tt else
  match uri with
  | None => ret tt
  | Some u =>
    octokit <- await GetOctokit (getOctokit credentials) ;;
    token <- await GetToken (getToken credentials) ;;
    let queryFile := fsPath u in
    query <- await (ReadFile queryFile "utf8") (readFile host queryFile "utf8") ;;
    let repositoriesFile := repositoriesFileOf queryFile in
    present <- await (PathExists repositoriesFile)
                     (pathExists host repositoriesFile) ;;
    if negb present then
      showAndLogErrorMessage
        (Text ("Missing file: '" ++ repositoriesFile
               ++ "' to specify the repositories to run against. This file must be a sibling of "
               ++ queryFile ++ "."))
    else
      text <- await (ReadFile repositoriesFile "utf8")
                    (readFile host repositoriesFile "utf8") ;;
      loaded <- await (SafeLoad text) (safeLoad host text) ;;
      match loaded with
      | None => raise (TypeError "ref")
      | Some config =>
        let ref := JS.orElse (ref config) "main" in
        language <- (if JS.truthy (language config)
                     then ret (language config)
                     else findLanguage cliServer uri) ;;
        let repositories := repositories config in
        if negb (JS.truthy language) then ret tt else
        match language with
        | None => ret tt
        | Some language =>
          submit octokit
            {| data_ref := ref;
               data_language := language;
               data_repositories := repositories;
               data_query := query;
               data_token := token |}
        end
      end
  end.

End Module_.

(** ** Observations on a run *)

(** The requests of a run, in order. *)
Fixpoint requests (t : list event) : list (string * RequestParameters) :=
  match t with
  | [] => []
  | Request route parameters :: t' => (route, parameters) :: requests t'
  | _ :: t' => requests t'
  end.

(** The user-facing notifications. *)
Definition is_notification (e : event) : bool :=
  match e with
  | ShowAndLogErrorMessage _ | ShowAndLogInformationMessage _ => true
  | _ => false
  end.

Definition notifications (t : list event) : list event :=
  filter is_notification t.

(** The calls that only [findLanguage] makes. *)
Definition is_language_resolution (e : event) : bool :=
  match e with
  | ResolveQueryByLanguage _ _ | ResolveLanguages | ShowQuickPick _ _ | Log _ => true
  | _ => false
  end.

Definition resolves_language (t : list event) : bool :=
  existsb is_language_resolution t.

(** The files a run looks at. *)
Fixpoint files (t : list event) : list string :=
  match t with
  | [] => []
  | ReadFile path _ :: t' => path :: files t'
  | PathExists path :: t' => path :: files t'
  | _ :: t' => files t'
  end.

(** The YAML documents a run parses. *)
Fixpoint parsed (t : list event) : list string :=
  match t with
  | [] => []
  | SafeLoad text :: t' => text :: parsed t'
  | _ :: t' => parsed t'
  end.

(** ** The stages of a submission *)

(** The options of the quick pick in [findLanguage]. *)
Definition quickPickOptions : QuickPickOptions :=
  {| placeHolder := "Select target language for your query";
     ignoreFocusOut := true |}.

(** The notification of a cancelled quick pick. *)
Definition notFound : event :=
  ShowAndLogErrorMessage
    (Text "Language not found. Language must be specified manually.").

Section Stages.

Variable host : Host.
Variable cliServer : CodeQLCliServer.
Variable credentials : Credentials.

(** The calls up to and including the YAML parse, for the query at [u]
    whose configuration file holds [text]. *)
Definition preamble (u : Uri) (text : string) : list event :=
  [ GetOctokit;
    GetToken;
    ReadFile (fsPath u) "utf8";
    PathExists (repositoriesFileOf (fsPath u));
    ReadFile (repositoriesFileOf (fsPath u)) "utf8";
    SafeLoad text ].

(** Every call of the preamble returned: the run has its client, its
    token, the query text and the parsed configuration in hand. *)
Record Loaded (u : Uri) (octokit : Octokit) (token query text : string)
  (config : Config) : Prop := {
  loaded_accepted : JS.endsWith (fsPath u) ".ql" = true;
  loaded_octokit : getOctokit credentials = Normal octokit;
  loaded_token : getToken credentials = Normal token;
  loaded_query : readFile host (fsPath u) "utf8" = Normal query;
  loaded_present :
    pathExists host (repositoriesFileOf (fsPath u)) = Normal true;
  loaded_text :
    readFile host (repositoriesFileOf (fsPath u)) "utf8" = Normal text;
  loaded_config : safeLoad host text = Normal (Some config)
}.

(** [config.language || await findLanguage(cliServer, uri)] *)
Definition resolution (u : Uri) (config : Config) : Async (option string) :=
  if JS.truthy (language config)
  then ret (language config)
  else findLanguage host cliServer (Some u).

(** The parameters of the request for a resolved language. *)
Definition parametersOf (config : Config) (language query token : string)
  : RequestParameters :=
  {| owner := OWNER;
     repo := REPO;
     data := {| data_ref := JS.orElse (ref config) "main";
                data_language := language;
                data_repositories := repositories config;
                data_query := query;
                data_token := token |} |}.

Definition scheduled : event :=
  ShowAndLogInformationMessage
    "Successfully scheduled runs. [Click here to see the progress](https://github.com/dsp-testing/qc-controller/actions).".

(** What follows the resolution of the language: [if (!language) return]
    and the [try] block, or the exception of [findLanguage] going up. *)
Definition closing (octokit : Octokit) (config : Config) (query token : string)
  (resolved : completion (option string)) : Async unit :=
  match resolved with
  | Throw e => raise e
  | Normal None => ret tt
  | Normal (Some l) =>
      if String.eqb l "" then ret tt
      else submit octokit (data (parametersOf config l query token))
  end.

(** The run calls [findLanguage]: it makes one of the calls that only
    [findLanguage] makes. *)
Definition calls_findLanguage (uri : option Uri) : Prop :=
  resolves_language
    (trace (runRemoteQuery host cliServer credentials uri)) = true.

(** The request of the run, if there is one, carries [P]. *)
Definition request_data (uri : option Uri) (P : RequestData -> Prop) : Prop :=
  forall route parameters,
    In (route, parameters)
       (requests (trace (runRemoteQuery host cliServer credentials uri))) ->
    P (data parameters).

(** "The configuration record and the query text are passed through
    unmodified": each field of the request equals the field of the parsed
    configuration, and the query equals the text read. *)
Definition passes_through_unmodified (u : Uri) : Prop :=
  forall octokit token query text config,
    Loaded u octokit token query text config ->
    request_data (Some u) (fun d =>
      data_repositories d = repositories config
      /\ Some (data_ref d) = ref config
      /\ Some (data_language d) = language config
      /\ data_query d = query).

(** "Lookup with fallback": an omitted branch gives ['main'], an omitted
    language is looked up with [findLanguage], and supplied values are
    used as they are, without a call of [findLanguage]. *)
Definition falls_back_only_when_omitted (u : Uri) : Prop :=
  forall octokit token query text config,
    Loaded u octokit token query text config ->
    (ref config = None ->
     request_data (Some u) (fun d => data_ref d = "main"))
    /\ (language config = None -> calls_findLanguage (Some u))
    /\ (forall r, ref config = Some r ->
        request_data (Some u) (fun d => data_ref d = r))
    /\ (forall l, language config = Some l ->
        ~ calls_findLanguage (Some u)
        /\ request_data (Some u) (fun d => data_language d = l)).

End Stages.

(** ** Concrete collaborators *)

Module Sample.

Definition uri : Uri := {| fsPath := "/ws/query.ql" |}.

Definition accepting : Octokit := {| request := fun _ _ => Normal tt |}.

Definition failing : Octokit :=
  {| request := fun _ _ => Throw (JS.mkError "Not Found") |}.

Definition credentials (octokit : Octokit) : Credentials :=
  {| getOctokit := Normal octokit; getToken := Normal "gho_1" |}.

(** A CLI server that detects the languages [detected] and offers
    JavaScript and Python. *)
Definition cliServer (detected : completion (list string)) : CodeQLCliServer :=
  {| resolveQueryByLanguage := fun _ _ =>
       match detected with
       | Normal ls => Normal {| byLanguage := map (fun l => (l, tt)) ls |}
       | Throw e => Throw e
       end;
     resolveLanguages := Normal [("javascript", tt); ("python", tt)] |}.

Definition ENOENT : JS.Error := JS.mkError "ENOENT: no such file or directory".

Definition YAMLException : JS.Error := JS.mkError "YAMLException".

(** A workspace holding the query and, when [file] is given, its
    configuration file: the text of the file and the record the parser
    makes of it.  [picked] is the answer to the quick pick. *)
Definition host (file : option (string * Config)) (picked : option string)
  : Host :=
  {| readFile := fun path _ =>
       if String.eqb path "/ws/query.ql" then Normal "select 1"
       else if String.eqb path "/ws/query.repositories" then
         match file with
         | Some (text, _) => Normal text
         | None => Throw ENOENT
         end
       else Throw ENOENT;
     pathExists := fun path =>
       Normal (String.eqb path "/ws/query.ql"
               || (String.eqb path "/ws/query.repositories"
                   && match file with Some _ => true | None => false end));
     safeLoad := fun text =>
       match file with
       | Some (text', config) =>
           if String.eqb text text' then Normal (Some config)
           else Throw YAMLException
       | None => Throw YAMLException
       end;
     activeTextEditor := None;
     showQuickPick := fun _ _ => Normal picked;
     getOnDiskWorkspaceFolders := ["/ws"] |}.

Definition full : string * Config :=
  ("{repositories: [a/b], ref: dev, language: go}",
   {| repositories := ["a/b"]; ref := Some "dev"; language := Some "go" |}).

Definition bare : string * Config :=
  ("{repositories: [a/b]}",
   {| repositories := ["a/b"]; ref := None; language := None |}).

Definition blank : string * Config :=
  ("{repositories: [a/b], ref: '', language: ''}",
   {| repositories := ["a/b"]; ref := Some ""; language := Some "" |}).

(** A CLI server that detects JavaScript. *)
Definition detecting : CodeQLCliServer := cliServer (Normal ["javascript"]).

(** A CLI server whose detection finds no language. *)
Definition undecided : CodeQLCliServer := cliServer (Normal []).

(** A CLI server whose detection fails. *)
Definition blind : CodeQLCliServer := cliServer (Throw (JS.mkError "no pack")).

End Sample.

(** ** Further observations and collaborators *)

(** Every notification of [t] is its last call. *)
Fixpoint notification_is_last (t : list event) : bool :=
  match t with
  | [] => true
  | e :: t' =>
      (negb (is_notification e) || match t' with [] => true | _ => false end)
      && notification_is_last t'
  end.

(** The same imported modules with another editor in front. *)
Definition withActiveTextEditor (host : Host) (editor : option Uri) : Host :=
  {| readFile := readFile host;
     pathExists := pathExists host;
     safeLoad := safeLoad host;
     activeTextEditor := editor;
     showQuickPick := showQuickPick host;
     getOnDiskWorkspaceFolders := getOnDiskWorkspaceFolders host |}.

(** The uri [findLanguage] works on: [queryUri || window.activeTextEditor?.document.uri]. *)
Definition languageUri (host : Host) (queryUri : option Uri) : option Uri :=
  match queryUri with
  | Some u => Some u
  | None => activeTextEditor host
  end.

(** Autodetection gave nothing: there was no uri, or the CLI server threw. *)
Definition undetected (host : Host) (cliServer : CodeQLCliServer)
  (queryUri : option Uri) : Prop :=
  languageUri host queryUri = None
  \/ exists u e,
       languageUri host queryUri = Some u
       /\ resolveQueryByLanguage cliServer (getOnDiskWorkspaceFolders host) u
          = Throw e.




Module Edge.


(** The sample workspace with an empty [query.repositories]: the parser
    yields [undefined]. *)
Definition emptyDocument : Host :=
  {| readFile := fun path _ =>
       if String.eqb path "/ws/query.ql" then Normal "select 1"
       else if String.eqb path "/ws/query.repositories" then Normal ""
       else Throw Sample.ENOENT;
     pathExists := fun path =>
       Normal (String.eqb path "/ws/query.ql"
               || String.eqb path "/ws/query.repositories");
     safeLoad := fun _ => Normal None;
     activeTextEditor := None;
     showQuickPick := fun _ _ => Normal None;
     getOnDiskWorkspaceFolders := ["/ws"] |}.


(** A CLI server that detects a language with an empty name first. *)
Definition nameless : CodeQLCliServer := Sample.cliServer (Normal [""; "go"]).

End Edge.

(** ** Case analysis on the answers of the collaborators *)

Ltac unfold_module :=
  unfold runRemoteQuery, submit, resolution, findLanguage, autodetect,
    promptLanguage, showAndLogErrorMessage, showAndLogInformationMessage,
    logger_log, await, fire, trace, result in *;
  cbn [bind ret catch raise Monad_Async MonadExc_Async] in *.

(** Splits on the innermost undetermined answer, so that every split lets
    the run go one call further. *)
Ltac split_answer :=
  match goal with
  | |- context [match ?x with _ => _ end] =>
      lazymatch x with
      | context [match _ with _ => _ end] => fail
      | _ => destruct x eqn:?
      end
  end.

Ltac split_run := repeat (split_answer; cbn in *).

(** ** Strings *)

Section Strings.

Lemma substring_whole (s : string) :
  String.substring 0 (String.length s) s = s.
Proof. induction s as [|c s IH]; cbn; [reflexivity | now rewrite IH]. Qed.

Lemma substring_split (s : string) (k : nat) :
  k <= String.length s ->
  String.substring 0 k s ++ String.substring k (String.length s - k) s = s.
Proof.
  revert k; induction s as [|c s IH]; intros [|k] Hk; cbn in *;
    try reflexivity; try lia.
  - now rewrite substring_whole.
  - f_equal. apply IH. lia.
Qed.

Lemma substring_append_l (a b : string) :
  String.substring 0 (String.length a) (a ++ b) = a.
Proof. induction a as [|c a IH]; cbn; [now destruct b | now rewrite IH]. Qed.

Lemma substring_append_r (a b : string) :
  String.substring (String.length a) (String.length b) (a ++ b) = b.
Proof. induction a as [|c a IH]; cbn; [apply substring_whole | exact IH]. Qed.

Lemma length_append (a b : string) :
  String.length (a ++ b) = String.length a + String.length b.
Proof. induction a as [|c a IH]; cbn; [reflexivity | now rewrite IH]. Qed.

(** The last [k] characters, when there are that many. *)
Lemma js_suffix (s : string) (k : nat) :
  k <= String.length s ->
  JS.substring s (JS.length s - Z.of_nat k) (JS.length s)
  = String.substring (String.length s - k) k s.
Proof.
  intros Hk. unfold JS.substring, JS.length.
  f_equal; lia.
Qed.

(** All but the last [k] characters. *)
Lemma js_prefix (s : string) (k : nat) :
  JS.substring s 0 (JS.length s - Z.of_nat k)
  = String.substring 0 (String.length s - k) s.
Proof. unfold JS.substring, JS.length. f_equal; lia. Qed.

Lemma endsWith_inv (s suffix : string) :
  JS.endsWith s suffix = true ->
  s = JS.substring s 0 (JS.length s - JS.length suffix) ++ suffix.
Proof.
  unfold JS.endsWith. intros H.
  apply andb_true_iff in H as [Hlen Heq].
  apply Z.leb_le in Hlen. unfold JS.length in Hlen.
  apply String.eqb_eq in Heq.
  assert (Hk : String.length suffix <= String.length s) by lia.
  change (JS.length suffix) with (Z.of_nat (String.length suffix)) in *.
  rewrite js_suffix in Heq by exact Hk.
  rewrite js_prefix.
  rewrite <- Heq at 2.
  pose proof (substring_split s (String.length s - String.length suffix)) as Hs.
  replace (String.length s - (String.length s - String.length suffix))
    with (String.length suffix) in Hs by lia.
  symmetry. apply Hs. lia.
Qed.

Lemma endsWith_append (base suffix : string) :
  JS.endsWith (base ++ suffix) suffix = true.
Proof.
  unfold JS.endsWith. apply andb_true_iff. split.
  - apply Z.leb_le. unfold JS.length. rewrite length_append. lia.
  - apply String.eqb_eq.
    change (JS.length suffix) with (Z.of_nat (String.length suffix)).
    rewrite js_suffix by (rewrite length_append; lia).
    rewrite length_append.
    replace (String.length base + String.length suffix - String.length suffix)
      with (String.length base) by lia.
    apply substring_append_r.
Qed.

Lemma prefix_append (base suffix : string) :
  JS.substring (base ++ suffix) 0 (JS.length (base ++ suffix) - JS.length suffix)
  = base.
Proof.
  change (JS.length suffix) with (Z.of_nat (String.length suffix)).
  rewrite js_prefix, length_append.
  replace (String.length base + String.length suffix - String.length suffix)
    with (String.length base) by lia.
  apply substring_append_l.
Qed.

End Strings.

(** ** [findLanguage] *)

Section FindLanguage.

Variable host : Host.
Variable cliServer : CodeQLCliServer.

Let folders := getOnDiskWorkspaceFolders host.

Lemma promptLanguage_run :
  promptLanguage host cliServer =
  match resolveLanguages cliServer with
  | Throw e => ([ResolveLanguages], Throw e)
  | Normal languages =>
      let ask := ShowQuickPick (JS.keys languages) quickPickOptions in
      match showQuickPick host (JS.keys languages) quickPickOptions with
      | Throw e => ([ResolveLanguages; ask], Throw e)
      | Normal picked =>
          if JS.truthy picked
          then ([ResolveLanguages; ask], Normal picked)
          else ([ResolveLanguages; ask; notFound], Normal picked)
      end
  end.
Proof.
  unfold_module. unfold quickPickOptions, notFound.
  destruct (resolveLanguages cliServer) as [languages|e]; [|reflexivity].
  destruct (showQuickPick host _ _) as [picked|e]; [|reflexivity].
  now destruct (JS.truthy picked).
Qed.

Lemma findLanguage_run (queryUri : option Uri) :
  findLanguage host cliServer queryUri =
  match (match queryUri with Some u => Some u | None => activeTextEditor host end) with
  | None => promptLanguage host cliServer
  | Some u =>
      match resolveQueryByLanguage cliServer folders u with
      | Normal queryInfo =>
          let language := JS.first (JS.keys (byLanguage queryInfo)) in
          ([ResolveQueryByLanguage folders u;
            Log ("Detected query language: " ++ JS.interpolate language)],
           Normal language)
      | Throw _ =>
          ((ResolveQueryByLanguage folders u
            :: Log "Could not autodetect query language. Select language manually."
            :: trace (promptLanguage host cliServer))%list,
           result (promptLanguage host cliServer))
      end
  end.
Proof.
  unfold findLanguage, autodetect, folders.
  destruct (match queryUri with Some u => Some u | None => activeTextEditor host end)
    as [u|].
  - unfold logger_log, await, fire.
    cbn [bind ret catch raise Monad_Async MonadExc_Async].
    destruct (resolveQueryByLanguage cliServer _ u) as [queryInfo|e].
    + reflexivity.
    + cbn -[promptLanguage]. now destruct (promptLanguage host cliServer).
  - cbn -[promptLanguage]. now destruct (promptLanguage host cliServer).
Qed.

Lemma promptLanguage_quiet :
  requests (trace (promptLanguage host cliServer)) = []
  /\ files (trace (promptLanguage host cliServer)) = []
  /\ parsed (trace (promptLanguage host cliServer)) = [].
Proof.
  rewrite promptLanguage_run.
  destruct (resolveLanguages cliServer); cbn; auto.
  destruct (showQuickPick host _ _) as [picked|]; cbn; auto.
  destruct (JS.truthy picked); cbn; auto.
Qed.

(** [findLanguage] sends no request, touches no file and parses
    nothing. *)
Lemma findLanguage_quiet (queryUri : option Uri) :
  requests (trace (findLanguage host cliServer queryUri)) = []
  /\ files (trace (findLanguage host cliServer queryUri)) = []
  /\ parsed (trace (findLanguage host cliServer queryUri)) = [].
Proof.
  rewrite findLanguage_run.
  destruct (match queryUri with Some u => Some u | None => activeTextEditor host end);
    [|apply promptLanguage_quiet].
  destruct (resolveQueryByLanguage cliServer folders u); cbn; auto.
  apply promptLanguage_quiet.
Qed.

Lemma promptLanguage_notifies :
  match result (promptLanguage host cliServer) with
  | Normal picked =>
      notifications (trace (promptLanguage host cliServer))
      = if JS.truthy picked then [] else [notFound]
  | Throw _ => notifications (trace (promptLanguage host cliServer)) = []
  end.
Proof.
  rewrite promptLanguage_run.
  destruct (resolveLanguages cliServer); cbn; auto.
  destruct (showQuickPick host _ _) as [picked|]; cbn; auto.
  destruct (JS.truthy picked) eqn:E; cbn; now rewrite E.
Qed.

(** [findLanguage] notifies only when it returns a falsy value, and then
    once. *)
Lemma findLanguage_notifies (queryUri : option Uri) :
  match result (findLanguage host cliServer queryUri) with
  | Normal (Some l) =>
      l <> "" -> notifications (trace (findLanguage host cliServer queryUri)) = []
  | _ => True
  end
  /\ length (notifications (trace (findLanguage host cliServer queryUri))) <= 1.
Proof.
  rewrite findLanguage_run.
  pose proof promptLanguage_notifies as P.
  assert (Q : match result (promptLanguage host cliServer) with
              | Normal (Some l) =>
                  l <> "" -> notifications (trace (promptLanguage host cliServer)) = []
              | _ => True
              end
              /\ length (notifications (trace (promptLanguage host cliServer))) <= 1).
  { destruct (result (promptLanguage host cliServer)) as [[l|]|];
      rewrite P; cbn.
    - destruct (String.eqb_spec l ""); cbn; split; auto; congruence.
    - auto.
    - auto. }
  destruct (match queryUri with Some u => Some u | None => activeTextEditor host end);
    [|exact Q].
  destruct (resolveQueryByLanguage cliServer folders u) as [queryInfo|].
  - split; [|cbn; lia].
    unfold result, trace, snd, fst.
    destruct (JS.first (JS.keys (byLanguage queryInfo))); cbn; auto.
  - exact Q.
Qed.

(** With a uri in hand, [findLanguage] starts by asking the CLI server. *)
Lemma findLanguage_starts (u : Uri) :
  exists rest,
    trace (findLanguage host cliServer (Some u))
    = ResolveQueryByLanguage folders u :: rest.
Proof.
  rewrite findLanguage_run.
  destruct (resolveQueryByLanguage cliServer folders u); cbn; eauto.
Qed.

End FindLanguage.

(** ** [runRemoteQuery] *)

Section RunRemoteQuery.

Variable host : Host.
Variable cliServer : CodeQLCliServer.
Variable credentials : Credentials.

Local Notation "'run'" := (runRemoteQuery host cliServer credentials).

Lemma rejected_spec (uri : option Uri) :
  rejected uri = true <->
  uri = None \/ exists u, uri = Some u /\ forall base, fsPath u <> base ++ ".ql".
Proof.
  unfold rejected. destruct uri as [u|]; cbn.
  - rewrite negb_true_iff. split.
    + intros H. right. exists u. split; [reflexivity|].
      intros base E. rewrite E, endsWith_append in H. discriminate.
    + intros [H|[u' [E H]]]; [discriminate|]. injection E as <-.
      destruct (JS.endsWith (fsPath u) ".ql") eqn:W; [|reflexivity].
      apply endsWith_inv in W. now apply H in W.
  - split; auto.
Qed.

Lemma requests_app (t1 t2 : list event) :
  requests (t1 ++ t2) = (requests t1 ++ requests t2)%list.
Proof.
  induction t1 as [|[] t1 IH]; cbn; try assumption; try reflexivity.
  now rewrite IH.
Qed.

Lemma submit_run (octokit : Octokit) (d : RequestData) :
  let parameters := {| owner := OWNER; repo := REPO; data := d |} in
  submit octokit d =
  ([Request ROUTE parameters;
    match request octokit ROUTE parameters with
    | Normal _ => scheduled
    | Throw e => ShowAndLogErrorMessage (Caught e)
    end],
   Normal tt).
Proof.
  unfold_module. cbn.
  now destruct (request octokit ROUTE _) as [[]|e].
Qed.

(** A sequence runs its first part and, if that returns, the rest. *)
Lemma bind_run {A B : Type} (m : Async A) (f : A -> Async B) :
  bind m f =
  match result m with
  | Normal a => ((trace m ++ trace (f a))%list, result (f a))
  | Throw e => (trace m, Throw e)
  end.
Proof.
  destruct m as [t [a|e]]; cbn; [now destruct (f a) | reflexivity].
Qed.

Lemma await_returns {A B : Type} (call : event) (answer : completion A)
  (a : A) (f : A -> Async B) :
  answer = Normal a ->
  bind (await call answer) f = (call :: trace (f a), result (f a)).
Proof. intros ->. now rewrite bind_run. Qed.

(** Once the configuration is loaded, the run is the preamble, the
    resolution of the language and the closing. *)
Lemma run_loaded (u : Uri) (octokit : Octokit) (token query text : string)
  (config : Config) :
  Loaded host credentials u octokit token query text config ->
  let resolved := resolution host cliServer u config in
  let closed := closing octokit config query token (result resolved) in
  run (Some u) =
  ((preamble u text ++ trace resolved ++ trace closed)%list, result closed).
Proof.
  intros [Ha Ho Ht Hq Hp Hx Hc] resolved closed.
  unfold runRemoteQuery, rejected. rewrite Ha. cbn [negb].
  rewrite (await_returns _ _ octokit _ Ho). cbn [trace result fst snd].
  rewrite (await_returns _ _ token _ Ht). cbn [trace result fst snd].
  rewrite (await_returns _ _ query _ Hq). cbn [trace result fst snd].
  rewrite (await_returns _ _ true _ Hp). cbn [trace result fst snd negb].
  rewrite (await_returns _ _ text _ Hx). cbn [trace result fst snd].
  rewrite (await_returns _ _ (Some config) _ Hc). cbn [trace result fst snd].
  fold (resolution host cliServer u config). fold resolved.
  rewrite bind_run. subst closed. unfold closing, parametersOf.
  destruct (result resolved) as [[l|]|e]; cbn [JS.truthy negb trace result fst snd].
  - destruct (String.eqb l ""); reflexivity.
  - reflexivity.
  - cbn. now rewrite app_nil_r.
Qed.

(** A run that sends a request has loaded its configuration and resolved
    a non-empty language. *)
Lemma run_reaches_request (uri : option Uri) :
  requests (trace (run uri)) <> [] ->
  exists u octokit token query text config l,
    uri = Some u
    /\ Loaded host credentials u octokit token query text config
    /\ result (resolution host cliServer u config) = Normal (Some l)
    /\ l <> "".
Proof.
  intros H.
  destruct uri as [u|]; [|now contradict H].
  destruct (JS.endsWith (fsPath u) ".ql") eqn:Ha;
    [|contradict H; unfold runRemoteQuery, rejected; now rewrite Ha].
  destruct (getOctokit credentials) as [octokit|] eqn:Ho;
    [|contradict H; unfold runRemoteQuery, rejected, await;
      now rewrite Ha, Ho].
  destruct (getToken credentials) as [token|] eqn:Ht;
    [|contradict H; unfold runRemoteQuery, rejected, await;
      cbn; now rewrite Ha, Ho, Ht].
  destruct (readFile host (fsPath u) "utf8") as [query|] eqn:Hq;
    [|contradict H; unfold runRemoteQuery, rejected, await;
      cbn; now rewrite Ha, Ho, Ht, Hq].
  destruct (pathExists host (repositoriesFileOf (fsPath u))) as [[]|] eqn:Hp;
    [| contradict H; unfold runRemoteQuery, rejected, await;
       cbn; now rewrite Ha, Ho, Ht, Hq, Hp
     | contradict H; unfold runRemoteQuery, rejected, await;
       cbn; now rewrite Ha, Ho, Ht, Hq, Hp].
  destruct (readFile host (repositoriesFileOf (fsPath u)) "utf8")
    as [text|] eqn:Hx;
    [|contradict H; unfold runRemoteQuery, rejected, await;
      cbn; now rewrite Ha, Ho, Ht, Hq, Hp, Hx].
  destruct (safeLoad host text) as [[config|]|] eqn:Hc;
    [| contradict H; unfold runRemoteQuery, rejected, await;
       cbn; now rewrite Ha, Ho, Ht, Hq, Hp, Hx, Hc
     | contradict H; unfold runRemoteQuery, rejected, await;
       cbn; now rewrite Ha, Ho, Ht, Hq, Hp, Hx, Hc].
  assert (L : Loaded host credentials u octokit token query text config)
    by (constructor; assumption).
  exists u, octokit, token, query, text, config.
  pose proof (run_loaded u octokit token query text config L) as E.
  cbv zeta in E. rewrite E in H. clear E. cbn [trace fst] in H.
  rewrite !requests_app in H.
  assert (P : requests (preamble u text) = []) by reflexivity.
  rewrite P in H. cbn [app] in H.
  assert (R : requests (trace (resolution host cliServer u config)) = []).
  { unfold resolution. destruct (JS.truthy (language config)); [reflexivity|].
    apply findLanguage_quiet. }
  rewrite R in H. cbn [app] in H.
  destruct (result (resolution host cliServer u config)) as [[l|]|e];
    try (now contradict H).
  destruct (String.eqb_spec l "") as [->|Hl].
  - now contradict H.
  - exists l. auto.
Qed.

(** A list is cut at its first request in one way only. *)
Lemma first_request_unique (a b c d : list event) (r r' : string)
  (p p' : RequestParameters) :
  requests a = [] -> requests b = [] ->
  (a ++ Request r p :: c)%list = (b ++ Request r' p' :: d)%list ->
  a = b /\ r = r' /\ p = p' /\ c = d.
Proof.
  revert b. induction a as [|x a IH]; intros [|y b] Ha Hb E; cbn in *.
  - injection E as -> -> ->. auto.
  - injection E as <- _. discriminate.
  - injection E as -> _. discriminate.
  - injection E as -> E.
    destruct (IH b) as (-> & -> & -> & ->); auto; destruct y; auto; discriminate.
Qed.

(** A list with one request, next to last, is cut at a request in one
    way only. *)
Lemma single_request_cut (a b d : list event) (r r' : string)
  (p p' : RequestParameters) (n : event) :
  requests a = [] -> is_notification n = true ->
  (a ++ [Request r p; n])%list = (b ++ Request r' p' :: d)%list ->
  b = a /\ r' = r /\ p' = p /\ d = [n].
Proof.
  intros Ha Hn E.
  assert (Hb : requests b = []).
  { apply (f_equal requests) in E. rewrite !requests_app, Ha in E.
    destruct n; try discriminate; cbn in E;
      destruct (requests b) as [|x [|y xs]]; auto; discriminate. }
  symmetry in E.
  apply first_request_unique in E as (-> & -> & -> & ->); auto.
Qed.

(** The run of a submission: the configuration is loaded and the language
    resolves to [l]. *)
Lemma run_submitted (u : Uri) (octokit : Octokit) (token query text l : string)
  (config : Config) :
  Loaded host credentials u octokit token query text config ->
  result (resolution host cliServer u config) = Normal (Some l) ->
  l <> "" ->
  run (Some u) =
  ((preamble u text ++ trace (resolution host cliServer u config)
    ++ [Request ROUTE (parametersOf config l query token);
        match request octokit ROUTE (parametersOf config l query token) with
        | Normal _ => scheduled
        | Throw e => ShowAndLogErrorMessage (Caught e)
        end])%list,
   Normal tt).
Proof.
  intros L R Hl.
  pose proof (run_loaded u octokit token query text config L) as E.
  cbv zeta in E. rewrite E, R. unfold closing.
  apply String.eqb_neq in Hl. rewrite Hl.
  now rewrite submit_run.
Qed.

(** A resolution that yields a language made only calls of
    [findLanguage], and it sent, read, parsed and notified nothing. *)
Lemma resolution_quiet (u : Uri) (config : Config) :
  requests (trace (resolution host cliServer u config)) = []
  /\ files (trace (resolution host cliServer u config)) = []
  /\ parsed (trace (resolution host cliServer u config)) = [].
Proof.
  unfold resolution. destruct (JS.truthy (language config)); [now cbn|].
  apply findLanguage_quiet.
Qed.


End RunRemoteQuery.

(** ** Properties of the submission flow *)

Section Properties.

Variable host : Host.
Variable cliServer : CodeQLCliServer.
Variable credentials : Credentials.

Local Notation "'run'" := (runRemoteQuery host cliServer credentials).

(** C8: when the uri is undefined, or its path does not end in ['.ql'],
    [runRemoteQuery] returns at once: it makes no call at all (no
    credentials, no file, no language, no request, no notification). *)
Theorem rejected_uri_has_no_effect (uri : option Uri) :
  uri = None
  \/ (exists u, uri = Some u /\ forall base, fsPath u <> base ++ ".ql") ->
  run uri = ([], Normal tt).
Proof.
  intros H. apply rejected_spec in H.
  unfold runRemoteQuery. now rewrite H.
Qed.

(** C1: a run that reaches the request sends exactly one, on the route
    ['POST /repos/:owner/:repo/code-scanning/codeql/queries'], to owner
    ['dsp-testing'] and repo ['qc-controller'] whatever the uri, the
    configuration and the credentials are, with a [data] object of the
    five fields [ref], [language], [repositories], [query], [token]. *)
Theorem request_targets_controller_repository (uri : option Uri) :
  requests (trace (run uri)) <> [] ->
  exists ref language repositories query token,
    requests (trace (run uri)) =
    [ ("POST /repos/:owner/:repo/code-scanning/codeql/queries",
       {| owner := "dsp-testing";
          repo := "qc-controller";
          data := {| data_ref := ref;
                     data_language := language;
                     data_repositories := repositories;
                     data_query := query;
                     data_token := token |} |}) ].
Proof.
  intros H.
  destruct (run_reaches_request host cliServer credentials uri H)
    as (u & octokit & token & query & text & config & l & -> & L & R & Hl).
  rewrite (run_submitted host cliServer credentials u octokit token query
             text l config L R Hl).
  cbn [trace fst]. rewrite !requests_app.
  destruct (resolution_quiet host cliServer u config) as (-> & _).
  exists (JS.orElse (ref config) "main"), l, (repositories config), query, token.
  now destruct (request octokit ROUTE (parametersOf config l query token)).
Qed.

(** C7: the outcome of the request is reported and nothing else is done
    about it.  If the request throws, the error is caught, handed to
    [showAndLogErrorMessage], and the run returns normally; if it
    returns, the information message is shown.  Either way the
    notification ends the run, and no request was made before this
    one. *)
Theorem request_outcome_is_notified (uri : option Uri)
  (before after : list event) (route : string) (parameters : RequestParameters) :
  trace (run uri) = (before ++ Request route parameters :: after)%list ->
  exists octokit,
    getOctokit credentials = Normal octokit
    /\ result (run uri) = Normal tt
    /\ requests before = []
    /\ after = [ match request octokit route parameters with
                 | Normal _ =>
                     ShowAndLogInformationMessage
                       "Successfully scheduled runs. [Click here to see the progress](https://github.com/dsp-testing/qc-controller/actions)."
                 | Throw error => ShowAndLogErrorMessage (Caught error)
                 end ].
Proof.
  intros E.
  assert (H : requests (trace (run uri)) <> []).
  { rewrite E, requests_app. cbn. now destruct (requests before). }
  destruct (run_reaches_request host cliServer credentials uri H)
    as (u & octokit & token & query & text & config & l & -> & L & R & Hl).
  rewrite (run_submitted host cliServer credentials u octokit token query
             text l config L R Hl) in E |- *.
  cbn [trace result fst snd] in *.
  exists octokit. split; [apply L|]. split; [reflexivity|].
  rewrite app_assoc in E.
  destruct (resolution_quiet host cliServer u config) as (Q & _).
  apply single_request_cut in E as (-> & -> & -> & ->).
  - split; [|reflexivity].
    rewrite requests_app. fold (trace (resolution host cliServer u config)).
    now rewrite Q.
  - rewrite requests_app. fold (trace (resolution host cliServer u config)).
    now rewrite Q.
  - now destruct (request octokit ROUTE _).
Qed.


(** The files of a run on an accepted uri: the query file and its
    sibling bound what is touched and parsed, and the sibling is
    consulted as soon as the credentials and the query are in hand. *)
Lemma run_consults_sibling (u : Uri) :
  JS.endsWith (fsPath u) ".ql" = true ->
  (forall path, In path (files (trace (run (Some u)))) ->
     path = fsPath u \/ path = repositoriesFileOf (fsPath u))
  /\ (forall text, In text (parsed (trace (run (Some u)))) ->
      readFile host (repositoriesFileOf (fsPath u)) "utf8" = Normal text)
  /\ (forall octokit token query,
        getOctokit credentials = Normal octokit ->
        getToken credentials = Normal token ->
        readFile host (fsPath u) "utf8" = Normal query ->
        In (PathExists (repositoriesFileOf (fsPath u))) (trace (run (Some u)))
        /\ (pathExists host (repositoriesFileOf (fsPath u)) = Normal true ->
            In (ReadFile (repositoriesFileOf (fsPath u)) "utf8")
               (trace (run (Some u)))
            /\ forall text,
                 readFile host (repositoriesFileOf (fsPath u)) "utf8"
                 = Normal text ->
                 parsed (trace (run (Some u))) = [text])).
Proof.
  intros A.
  unfold runRemoteQuery, rejected. rewrite A. clear A. cbn [negb].
  generalize (repositoriesFileOf (fsPath u)). intros sibling.
  split; [|split].
  - intros path. unfold_module. split_run; cbn; intuition.
  - intros text. unfold_module. split_run; cbn; intuition congruence.
  - intros octokit token query Ho Ht Hq.
    rewrite !(await_returns _ _ octokit _ Ho). cbn [trace result fst snd].
    rewrite !(await_returns _ _ token _ Ht). cbn [trace result fst snd].
    rewrite !(await_returns _ _ query _ Hq). cbn [trace result fst snd].
    split.
    + rewrite bind_run. unfold await at 1 2. cbn [trace result fst snd].
      destruct (pathExists host sibling); cbn; auto 10.
    + intros Hp.
      rewrite !(await_returns _ _ true _ Hp). cbn [trace result fst snd negb].
      split.
      * rewrite bind_run. unfold await at 1 2. cbn [trace result fst snd].
        destruct (readFile host sibling "utf8"); cbn; auto 10.
      * intros text Hx.
        rewrite !(await_returns _ _ text _ Hx). cbn [trace result fst snd].
        unfold_module. split_run; reflexivity.
Qed.

(** C3: for every accepted uri the path of the query file is some
    [base ++ '.ql'], and the configuration file is its sibling
    [base ++ '.repositories'].  The only files the run looks at are these
    two, and the only text it parses as configuration is the content of
    the sibling.  Once the credentials and the query file are read, the
    run checks that the sibling exists; when it does, the run reads it,
    and what it parses is exactly the text read from it. *)
Theorem configuration_file_is_sibling (u : Uri) :
  JS.endsWith (fsPath u) ".ql" = true ->
  exists base,
    fsPath u = base ++ ".ql"
    /\ repositoriesFileOf (fsPath u) = base ++ ".repositories"
    /\ (forall path, In path (files (trace (run (Some u)))) ->
        path = base ++ ".ql" \/ path = base ++ ".repositories")
    /\ (forall text, In text (parsed (trace (run (Some u)))) ->
        readFile host (base ++ ".repositories") "utf8" = Normal text)
    /\ (forall octokit token query,
          getOctokit credentials = Normal octokit ->
          getToken credentials = Normal token ->
          readFile host (base ++ ".ql") "utf8" = Normal query ->
          In (PathExists (base ++ ".repositories")) (trace (run (Some u)))
          /\ (pathExists host (base ++ ".repositories") = Normal true ->
              In (ReadFile (base ++ ".repositories") "utf8")
                 (trace (run (Some u)))
              /\ forall text,
                   readFile host (base ++ ".repositories") "utf8"
                   = Normal text ->
                   parsed (trace (run (Some u))) = [text])).
Proof.
  intros A.
  exists (JS.substring (fsPath u) 0 (JS.length (fsPath u) - JS.length ".ql")).
  pose proof (endsWith_inv (fsPath u) ".ql" A) as E.
  split; [exact E|]. split; [reflexivity|].
  fold (repositoriesFileOf (fsPath u)). rewrite <- E.
  exact (run_consults_sibling u A).
Qed.

(** C9: when the sibling ['.repositories'] file does not exist, the run
    parses nothing, resolves no language and sends no request; once the
    credentials and the query file are read, it shows the error naming
    the missing file and returns. *)
Theorem missing_configuration_file_is_reported (u : Uri) :
  JS.endsWith (fsPath u) ".ql" = true ->
  pathExists host (repositoriesFileOf (fsPath u)) = Normal false ->
  parsed (trace (run (Some u))) = []
  /\ resolves_language (trace (run (Some u))) = false
  /\ requests (trace (run (Some u))) = []
  /\ forall octokit token query,
       getOctokit credentials = Normal octokit ->
       getToken credentials = Normal token ->
       readFile host (fsPath u) "utf8" = Normal query ->
       run (Some u) =
       ([ GetOctokit;
          GetToken;
          ReadFile (fsPath u) "utf8";
          PathExists (repositoriesFileOf (fsPath u));
          ShowAndLogErrorMessage
            (Text ("Missing file: '" ++ repositoriesFileOf (fsPath u)
                   ++ "' to specify the repositories to run against. This file must be a sibling of "
                   ++ fsPath u ++ ".")) ],
        Normal tt).
Proof.
  intros Ha Hp.
  unfold runRemoteQuery, rejected, showAndLogErrorMessage, await, fire.
  cbn [bind ret catch raise Monad_Async MonadExc_Async].
  rewrite Ha, Hp. cbn [negb].
  repeat split.
  - destruct (getOctokit credentials), (getToken credentials),
      (readFile host (fsPath u) "utf8"); reflexivity.
  - destruct (getOctokit credentials), (getToken credentials),
      (readFile host (fsPath u) "utf8"); reflexivity.
  - destruct (getOctokit credentials), (getToken credentials),
      (readFile host (fsPath u) "utf8"); reflexivity.
  - intros octokit token query -> -> ->. reflexivity.
Qed.

(** C10: when autodetection succeeds with an empty [byLanguage],
    [findLanguage] returns [undefined] after its two calls (the CLI
    server and the log), without prompting and without an error message;
    a run that needed the language then returns with no request and no
    notification at all. *)
Theorem empty_autodetection_is_silent (u : Uri) (octokit : Octokit)
  (token query text : string) (config : Config) (queryInfo : QueryInfo) :
  Loaded host credentials u octokit token query text config ->
  JS.truthy (language config) = false ->
  resolveQueryByLanguage cliServer (getOnDiskWorkspaceFolders host) u
  = Normal queryInfo ->
  byLanguage queryInfo = [] ->
  let detection :=
    [ ResolveQueryByLanguage (getOnDiskWorkspaceFolders host) u;
      Log "Detected query language: undefined" ] in
  findLanguage host cliServer (Some u) = (detection, Normal None)
  /\ run (Some u) =
     ([ GetOctokit;
        GetToken;
        ReadFile (fsPath u) "utf8";
        PathExists (repositoriesFileOf (fsPath u));
        ReadFile (repositoriesFileOf (fsPath u)) "utf8";
        SafeLoad text ] ++ detection,
      Normal tt)%list
  /\ notifications (trace (run (Some u))) = []
  /\ requests (trace (run (Some u))) = [].
Proof.
  intros L T D B detection.
  assert (F : findLanguage host cliServer (Some u) = (detection, Normal None)).
  { rewrite findLanguage_run, D, B. reflexivity. }
  assert (E : run (Some u) = ((preamble u text ++ detection)%list, Normal tt)).
  { pose proof (run_loaded host cliServer credentials u octokit token query
                  text config L) as E.
    cbv zeta in E. rewrite E. unfold resolution. rewrite T, F.
    reflexivity. }
  split; [exact F|]. split; [exact E|].
  rewrite E. split; reflexivity.
Qed.

(** The order of [findLanguage]: the CLI server first, the quick pick only
    when that gave nothing, and what a cancelled pick does. *)
Lemma findLanguage_detection_then_prompt (queryUri : option Uri) :
  let uri := match queryUri with
             | Some u => Some u
             | None => activeTextEditor host
             end in
  let folders := getOnDiskWorkspaceFolders host in
  let found := findLanguage host cliServer queryUri in
  let undetected :=
    uri = None
    \/ exists u e, uri = Some u
                   /\ resolveQueryByLanguage cliServer folders u = Throw e in
  (forall u, uri = Some u ->
     exists rest, trace found = ResolveQueryByLanguage folders u :: rest)
  /\ (forall u queryInfo,
        uri = Some u ->
        resolveQueryByLanguage cliServer folders u = Normal queryInfo ->
        let language := JS.first (JS.keys (byLanguage queryInfo)) in
        found =
        ([ ResolveQueryByLanguage folders u;
           Log ("Detected query language: " ++ JS.interpolate language) ],
         Normal language))
  /\ (forall items options,
        In (ShowQuickPick items options) (trace found) ->
        undetected
        /\ exists languages,
             resolveLanguages cliServer = Normal languages
             /\ items = JS.keys languages)
  /\ (undetected ->
      forall languages,
        resolveLanguages cliServer = Normal languages ->
        In (ShowQuickPick (JS.keys languages)
              {| placeHolder := "Select target language for your query";
                 ignoreFocusOut := true |})
           (trace found))
  /\ (forall items options,
        In (ShowQuickPick items options) (trace found) ->
        showQuickPick host items options = Normal None ->
        result found = Normal None
        /\ exists before,
             trace found =
             (before ++
              [ ShowQuickPick items options;
                ShowAndLogErrorMessage
                  (Text "Language not found. Language must be specified manually.") ])%list).
Proof.
  intros uri folders found undetected. subst found undetected.
  rewrite findLanguage_run. fold uri. fold folders.
  assert (P : forall items options,
    In (ShowQuickPick items options) (trace (promptLanguage host cliServer)) ->
    (exists languages,
       resolveLanguages cliServer = Normal languages
       /\ items = JS.keys languages)
    /\ (showQuickPick host items options = Normal None ->
        result (promptLanguage host cliServer) = Normal None
        /\ trace (promptLanguage host cliServer)
           = [ResolveLanguages; ShowQuickPick items options; notFound])).
  { intros items options. rewrite promptLanguage_run.
    destruct (resolveLanguages cliServer) as [languages|];
      [|cbn; intros [X|[]]; discriminate].
    cbv zeta.
    destruct (showQuickPick host (JS.keys languages) quickPickOptions)
      as [picked|] eqn:S.
    - destruct (JS.truthy picked) eqn:T; cbn.
      + intros [X|[X|[]]]; [discriminate|]. injection X as <- <-.
        split; [eauto|]. intros S'. fold quickPickOptions in S'.
        rewrite S in S'. injection S' as ->. discriminate.
      + intros [X|[X|[X|[]]]]; try discriminate. injection X as <- <-.
        split; [eauto|]. intros S'. fold quickPickOptions in S'.
        rewrite S in S'. injection S' as ->. split; reflexivity.
    - cbn. intros [X|[X|[]]]; [discriminate|]. injection X as <- <-.
      split; [eauto|]. intros S'. fold quickPickOptions in S'.
      rewrite S in S'. discriminate. }
  assert (Q : forall languages,
    resolveLanguages cliServer = Normal languages ->
    In (ShowQuickPick (JS.keys languages) quickPickOptions)
       (trace (promptLanguage host cliServer))).
  { intros languages RL. rewrite promptLanguage_run, RL. cbv zeta.
    destruct (showQuickPick host _ _) as [picked|]; [|cbn; auto].
    destruct (JS.truthy picked); cbn; auto. }
  destruct uri as [u|] eqn:U.
  - destruct (resolveQueryByLanguage cliServer folders u) as [queryInfo|e] eqn:D.
    + repeat split.
      * intros u' [= <-]. cbn. eauto.
      * intros u' queryInfo' [= <-] D'. rewrite D in D'.
        now injection D' as <-.
      * destruct H as [X|[X|[]]]; discriminate.
      * destruct H as [X|[X|[]]]; discriminate.
      * intros [X|(u' & e & [= <-] & D')]; [discriminate|].
        rewrite D in D'. discriminate.
      * destruct H as [X|[X|[]]]; discriminate.
      * destruct H as [X|[X|[]]]; discriminate.
    + repeat split.
      * intros u' [= <-]. cbn. eauto.
      * intros u' queryInfo' [= <-] D'. rewrite D in D'. discriminate.
      * right. eauto.
      * destruct H as [X|[X|X]]; try discriminate. now apply P in X.
      * intros _ languages RL. cbn. right. right. now apply Q.
      * destruct H as [X|[X|X]]; try discriminate.
        apply P in X as [_ X]. now apply X.
      * destruct H as [X|[X|X]]; try discriminate.
        apply P in X as [_ X]. destruct (X H0) as [_ Tr].
        exists [ResolveQueryByLanguage folders u;
                Log "Could not autodetect query language. Select language manually.";
                ResolveLanguages].
        unfold trace at 1. cbn [fst]. now rewrite Tr.
  - repeat split.
    + discriminate.
    + discriminate.
    + now left.
    + now apply P in H.
    + intros _ languages RL. now apply Q.
    + apply P in H as [_ X]. now apply X.
    + apply P in H as [_ X]. destruct (X H0) as [_ Tr].
      exists [ResolveLanguages]. now rewrite Tr.
Qed.

(** C5: [findLanguage] asks the CLI server first, on the query uri or
    else on the uri of the active editor, and returns what it detects.
    The quick pick is shown if and only if there is no uri or the
    detection threw (and the list of languages could be fetched), and it
    offers the languages of the CLI server.  The language is then what
    the user picked, with no message; when the user cancels, the error
    message is shown and [undefined] is returned. *)
Theorem findLanguage_autodetects_then_prompts (queryUri : option Uri) :
  let uri := match queryUri with
             | Some u => Some u
             | None => activeTextEditor host
             end in
  let folders := getOnDiskWorkspaceFolders host in
  let found := findLanguage host cliServer queryUri in
  let undetected :=
    uri = None
    \/ exists u e, uri = Some u
                   /\ resolveQueryByLanguage cliServer folders u = Throw e in
  let options :=
    {| placeHolder := "Select target language for your query";
       ignoreFocusOut := true |} in
  let notFound :=
    ShowAndLogErrorMessage
      (Text "Language not found. Language must be specified manually.") in
  (forall u, uri = Some u ->
     exists rest, trace found = ResolveQueryByLanguage folders u :: rest)
  /\ (forall u queryInfo,
        uri = Some u ->
        resolveQueryByLanguage cliServer folders u = Normal queryInfo ->
        let language := JS.first (JS.keys (byLanguage queryInfo)) in
        found =
        ([ ResolveQueryByLanguage folders u;
           Log ("Detected query language: " ++ JS.interpolate language) ],
         Normal language))
  /\ (forall items options',
        In (ShowQuickPick items options') (trace found) ->
        undetected
        /\ exists languages,
             resolveLanguages cliServer = Normal languages
             /\ items = JS.keys languages)
  /\ (undetected ->
      forall languages,
        resolveLanguages cliServer = Normal languages ->
        In (ShowQuickPick (JS.keys languages) options) (trace found))
  /\ (undetected ->
      forall languages picked,
        resolveLanguages cliServer = Normal languages ->
        showQuickPick host (JS.keys languages) options = Normal picked ->
        result found = Normal picked
        /\ (exists before,
              trace found =
              (before ++
               ResolveLanguages
               :: ShowQuickPick (JS.keys languages) options
               :: (if JS.truthy picked then [] else [notFound]))%list
              /\ forall e, In e before -> is_notification e = false))
  /\ (forall items options',
        In (ShowQuickPick items options') (trace found) ->
        showQuickPick host items options' = Normal None ->
        result found = Normal None
        /\ exists before,
             trace found =
             (before ++ [ShowQuickPick items options'; notFound])%list).
Proof.
  intros uri folders found undetected options notFound.
  destruct (findLanguage_detection_then_prompt queryUri)
    as (A1 & A2 & A3 & A4 & A5).
  split; [exact A1|]. split; [exact A2|]. split; [exact A3|].
  split; [exact A4|]. split; [|exact A5].
  intros U languages picked RL SQ.
  assert (P : promptLanguage host cliServer =
              ((ResolveLanguages
                :: ShowQuickPick (JS.keys languages) options
                :: (if JS.truthy picked then [] else [notFound]))%list,
               Normal picked)).
  { rewrite promptLanguage_run, RL. cbv zeta.
    change quickPickOptions with options. rewrite SQ.
    now destruct (JS.truthy picked). }
  subst found. rewrite findLanguage_run. fold uri. fold folders.
  destruct U as [-> | (u & e & -> & ->)]; rewrite P; cbn [result trace fst snd].
  - split; [reflexivity|]. exists []. split; [reflexivity|]. intros c [].
  - split; [reflexivity|].
    exists [ResolveQueryByLanguage folders u;
            Log "Could not autodetect query language. Select language manually."].
    split; [reflexivity|]. intros c [<-|[<-|[]]]; reflexivity.
Qed.

(** The request of a run that has loaded [config]: the language resolved
    to a non-empty [l], and the parameters are those made of [config],
    [l], the query text and the token. *)
Lemma run_request_data (u : Uri) (octokit : Octokit)
  (token query text : string) (config : Config)
  (route : string) (parameters : RequestParameters) :
  Loaded host credentials u octokit token query text config ->
  In (route, parameters) (requests (trace (run (Some u)))) ->
  exists l,
    l <> ""
    /\ result (resolution host cliServer u config) = Normal (Some l)
    /\ route = ROUTE
    /\ parameters = parametersOf config l query token.
Proof.
  intros L I.
  pose proof (run_loaded host cliServer credentials u octokit token query
                text config L) as E.
  cbv zeta in E. rewrite E in I. clear E. cbn [trace fst] in I.
  rewrite !requests_app in I.
  destruct (resolution_quiet host cliServer u config) as (Q & _).
  rewrite Q in I. cbn [app requests preamble] in I.
  destruct (result (resolution host cliServer u config)) as [[l|]|e];
    unfold closing in I; [|cbn in I; contradiction..].
  destruct (String.eqb l "") eqn:Hl; [cbn in I; contradiction|].
  apply String.eqb_neq in Hl.
  exists l. rewrite submit_run in I. cbn [trace fst requests] in I.
  destruct (request octokit ROUTE _); cbn in I;
    destruct I as [[= <- <-]|[]]; auto.
Qed.

Lemma orElse_supplied (r d : string) : r <> "" -> JS.orElse (Some r) d = r.
Proof. intros H. cbn. apply String.eqb_neq in H. now rewrite H. Qed.

Lemma orElse_fallback (v : option string) (d : string) :
  v = None \/ v = Some "" -> JS.orElse v d = d.
Proof. now intros [-> | ->]. Qed.

(** A non-empty configured language is the resolution, with no call. *)
Lemma resolution_supplied (u : Uri) (config : Config) (l : string) :
  language config = Some l -> l <> "" ->
  resolution host cliServer u config = ([], Normal (Some l)).
Proof.
  intros E H. unfold resolution. rewrite E. cbn.
  apply String.eqb_neq in H. now rewrite H.
Qed.

(** Without one, the resolution is [findLanguage]. *)
Lemma resolution_fallback (u : Uri) (config : Config) :
  language config = None \/ language config = Some "" ->
  resolution host cliServer u config = findLanguage host cliServer (Some u).
Proof. unfold resolution. now intros [-> | ->]. Qed.

Lemma resolves_language_app (t1 t2 : list event) :
  resolves_language (t1 ++ t2) = resolves_language t1 || resolves_language t2.
Proof. apply existsb_app. Qed.

(** C2: the request carries the [repositories] of the parsed
    configuration and the text read from the query file as they are.
    Its [ref] is the configuration's when that is a non-empty string and
    ['main'] otherwise; its [language] is the configuration's when that
    is a non-empty string and otherwise the one [findLanguage]
    returned. *)
Theorem payload_follows_configuration (u : Uri) (octokit : Octokit)
  (token query text : string) (config : Config) :
  Loaded host credentials u octokit token query text config ->
  request_data host cliServer credentials (Some u) (fun d =>
    data_repositories d = repositories config
    /\ data_query d = query
    /\ (forall r, ref config = Some r -> r <> "" -> data_ref d = r)
    /\ (ref config = None \/ ref config = Some "" -> data_ref d = "main")
    /\ (forall l, language config = Some l -> l <> "" -> data_language d = l)
    /\ (language config = None \/ language config = Some "" ->
        result (findLanguage host cliServer (Some u))
        = Normal (Some (data_language d)))).
Proof.
  intros L route parameters I.
  destruct (run_request_data u octokit token query text config route
              parameters L I) as (l & Hl & R & -> & ->).
  cbn [parametersOf data data_repositories data_query data_ref data_language].
  repeat split.
  - intros r -> Hr. now apply orElse_supplied.
  - apply orElse_fallback.
  - intros l' E Hl'. rewrite (resolution_supplied u config l' E Hl') in R.
    cbn in R. congruence.
  - intros E. now rewrite (resolution_fallback u config E) in R.
Qed.

(** C4: the optional values are looked up with a fallback on falsy
    values.  A branch that is omitted or empty gives ['main']; a language
    that is omitted or empty makes the run call [findLanguage] and use
    what it returns; a non-empty branch is used as it is, and a non-empty
    language is used as it is without any call of [findLanguage]. *)
Theorem optional_values_fall_back (u : Uri) (octokit : Octokit)
  (token query text : string) (config : Config) :
  Loaded host credentials u octokit token query text config ->
  (ref config = None \/ ref config = Some "" ->
   request_data host cliServer credentials (Some u)
     (fun d => data_ref d = "main"))
  /\ (language config = None \/ language config = Some "" ->
      calls_findLanguage host cliServer credentials (Some u)
      /\ request_data host cliServer credentials (Some u)
           (fun d => result (findLanguage host cliServer (Some u))
                     = Normal (Some (data_language d))))
  /\ (forall r, ref config = Some r -> r <> "" ->
      request_data host cliServer credentials (Some u)
        (fun d => data_ref d = r))
  /\ (forall l, language config = Some l -> l <> "" ->
      ~ calls_findLanguage host cliServer credentials (Some u)
      /\ request_data host cliServer credentials (Some u)
           (fun d => data_language d = l)).
Proof.
  intros L.
  pose proof (run_request_data u octokit token query text config) as D.
  pose proof (run_loaded host cliServer credentials u octokit token query
                text config L) as E.
  cbv zeta in E.
  split; [|split; [|split]].
  - intros H route parameters I.
    destruct (D route parameters L I) as (l & _ & _ & _ & ->).
    now apply orElse_fallback.
  - intros H. split.
    + unfold calls_findLanguage. rewrite E. cbn [trace fst].
      rewrite !resolves_language_app, (resolution_fallback u config H).
      destruct (findLanguage_starts host cliServer u) as [rest ->].
      reflexivity.
    + intros route parameters I.
      destruct (D route parameters L I) as (l & _ & R & _ & ->).
      now rewrite (resolution_fallback u config H) in R.
  - intros r Hr Hn route parameters I.
    destruct (D route parameters L I) as (l & _ & _ & _ & ->).
    cbn [parametersOf data data_ref]. rewrite Hr. now apply orElse_supplied.
  - intros l Hc Hl. split.
    + unfold calls_findLanguage. rewrite E.
      rewrite (resolution_supplied u config l Hc Hl).
      cbn [trace result fst snd app]. unfold closing.
      apply String.eqb_neq in Hl. rewrite Hl, submit_run.
      now destruct (request octokit ROUTE _).
    + intros route parameters I.
      destruct (D route parameters L I) as (l' & _ & R & _ & ->).
      rewrite (resolution_supplied u config l Hc Hl) in R.
      cbn in R. cbn [parametersOf data data_language]. congruence.
Qed.

End Properties.

(** ** The properties at work on a sample workspace *)

(** The submission of [/ws/query.ql] with a full configuration and a
    failing remote: one request, to the controller repository. *)
Lemma request_targets_controller_repository_witness :
  requests (trace (runRemoteQuery (Sample.host (Some Sample.full) None)
                     Sample.detecting (Sample.credentials Sample.failing)
                     (Some Sample.uri))) <> []
  /\ exists ref language repositories query token,
       requests (trace (runRemoteQuery (Sample.host (Some Sample.full) None)
                          Sample.detecting (Sample.credentials Sample.failing)
                          (Some Sample.uri))) =
       [ ("POST /repos/:owner/:repo/code-scanning/codeql/queries",
          {| owner := "dsp-testing";
             repo := "qc-controller";
             data := {| data_ref := ref;
                        data_language := language;
                        data_repositories := repositories;
                        data_query := query;
                        data_token := token |} |}) ].
Proof.
  split.
  - vm_compute. discriminate.
  - apply (request_targets_controller_repository
             (Sample.host (Some Sample.full) None) Sample.detecting
             (Sample.credentials Sample.failing) (Some Sample.uri)).
    vm_compute. discriminate.
Defined.

(** A configuration without [ref] and [language]: the request carries
    ['main'], which is not a field of the configuration. *)
Lemma defaults_are_not_configuration_fields :
  ~ passes_through_unmodified (Sample.host (Some Sample.bare) None)
      Sample.detecting (Sample.credentials Sample.accepting) Sample.uri.
Proof.
  intros H.
  assert (L : Loaded (Sample.host (Some Sample.bare) None)
                (Sample.credentials Sample.accepting) Sample.uri
                Sample.accepting "gho_1" "select 1"
                (fst Sample.bare) (snd Sample.bare))
    by (constructor; reflexivity).
  specialize (H _ _ _ _ _ L ROUTE
                (parametersOf (snd Sample.bare) "javascript" "select 1" "gho_1")).
  destruct H as (_ & H & _).
  - vm_compute. left. reflexivity.
  - vm_compute in H. discriminate H.
Qed.

Lemma payload_follows_configuration_witness :
  Loaded (Sample.host (Some Sample.bare) None)
    (Sample.credentials Sample.accepting) Sample.uri
    Sample.accepting "gho_1" "select 1" (fst Sample.bare) (snd Sample.bare)
  /\ request_data (Sample.host (Some Sample.bare) None) Sample.detecting
       (Sample.credentials Sample.accepting) (Some Sample.uri) (fun d =>
         data_repositories d = ["a/b"]
         /\ data_query d = "select 1"
         /\ data_ref d = "main"
         /\ Some (data_language d) = Some "javascript").
Proof.
  assert (L : Loaded (Sample.host (Some Sample.bare) None)
                (Sample.credentials Sample.accepting) Sample.uri
                Sample.accepting "gho_1" "select 1"
                (fst Sample.bare) (snd Sample.bare))
    by (constructor; reflexivity).
  split; [exact L|].
  intros route parameters I.
  destruct (payload_follows_configuration
              (Sample.host (Some Sample.bare) None) Sample.detecting
              (Sample.credentials Sample.accepting) Sample.uri
              Sample.accepting "gho_1" "select 1"
              (fst Sample.bare) (snd Sample.bare) L route parameters I)
    as (A & B & _ & C & _ & D).
  split; [exact A|]. split; [exact B|].
  split; [exact (C (or_introl eq_refl))|].
  specialize (D (or_introl eq_refl)). vm_compute in D.
  injection D as D. unfold data_language, data. now rewrite <- D.
Defined.

Lemma configuration_file_is_sibling_witness :
  JS.endsWith (fsPath Sample.uri) ".ql" = true
  /\ repositoriesFileOf (fsPath Sample.uri) = "/ws/query.repositories"
  /\ In (PathExists (repositoriesFileOf (fsPath Sample.uri)))
        (trace (runRemoteQuery (Sample.host (Some Sample.full) None)
                  Sample.detecting (Sample.credentials Sample.accepting)
                  (Some Sample.uri)))
  /\ In (ReadFile (repositoriesFileOf (fsPath Sample.uri)) "utf8")
        (trace (runRemoteQuery (Sample.host (Some Sample.full) None)
                  Sample.detecting (Sample.credentials Sample.accepting)
                  (Some Sample.uri)))
  /\ parsed (trace (runRemoteQuery (Sample.host (Some Sample.full) None)
                      Sample.detecting (Sample.credentials Sample.accepting)
                      (Some Sample.uri)))
     = ["{repositories: [a/b], ref: dev, language: go}"].
Proof.
  split; [reflexivity|]. split; [reflexivity|].
  destruct (configuration_file_is_sibling
              (Sample.host (Some Sample.full) None) Sample.detecting
              (Sample.credentials Sample.accepting) Sample.uri eq_refl)
    as (base & E & F & _ & _ & C).
  rewrite F.
  assert (Q : readFile (Sample.host (Some Sample.full) None)
                (base ++ ".ql") "utf8" = Normal "select 1")
    by (rewrite <- E; reflexivity).
  assert (P : pathExists (Sample.host (Some Sample.full) None)
                (base ++ ".repositories") = Normal true)
    by (rewrite <- F; reflexivity).
  assert (X : readFile (Sample.host (Some Sample.full) None)
                (base ++ ".repositories") "utf8"
              = Normal "{repositories: [a/b], ref: dev, language: go}")
    by (rewrite <- F; reflexivity).
  destruct (C Sample.accepting "gho_1" "select 1" eq_refl eq_refl Q)
    as (I & R).
  destruct (R P) as (J & T).
  split; [exact I|]. split; [exact J|exact (T _ X)].
Defined.

(** A configuration that supplies empty strings: the request carries
    ['main'] and [findLanguage] is called. *)
Lemma empty_values_count_as_omitted :
  ~ falls_back_only_when_omitted (Sample.host (Some Sample.blank) None)
      Sample.detecting (Sample.credentials Sample.accepting) Sample.uri.
Proof.
  intros H.
  assert (L : Loaded (Sample.host (Some Sample.blank) None)
                (Sample.credentials Sample.accepting) Sample.uri
                Sample.accepting "gho_1" "select 1"
                (fst Sample.blank) (snd Sample.blank))
    by (constructor; reflexivity).
  destruct (H _ _ _ _ _ L) as (_ & _ & Hr & Hl).
  destruct (Hl "" eq_refl) as [N _].
  apply N. reflexivity.
Qed.

Lemma optional_values_fall_back_witness :
  Loaded (Sample.host (Some Sample.full) None)
    (Sample.credentials Sample.accepting) Sample.uri
    Sample.accepting "gho_1" "select 1" (fst Sample.full) (snd Sample.full)
  /\ ~ calls_findLanguage (Sample.host (Some Sample.full) None)
        Sample.detecting (Sample.credentials Sample.accepting)
        (Some Sample.uri)
  /\ request_data (Sample.host (Some Sample.full) None) Sample.detecting
       (Sample.credentials Sample.accepting) (Some Sample.uri)
       (fun d => data_ref d = "dev" /\ data_language d = "go").
Proof.
  assert (L : Loaded (Sample.host (Some Sample.full) None)
                (Sample.credentials Sample.accepting) Sample.uri
                Sample.accepting "gho_1" "select 1"
                (fst Sample.full) (snd Sample.full))
    by (constructor; reflexivity).
  split; [exact L|].
  destruct (optional_values_fall_back
              (Sample.host (Some Sample.full) None) Sample.detecting
              (Sample.credentials Sample.accepting) Sample.uri
              Sample.accepting "gho_1" "select 1"
              (fst Sample.full) (snd Sample.full) L) as (_ & _ & Hr & Hl).
  assert (Ne : forall a b : string, String.eqb a b = false -> a <> b)
    by (intros a b; apply String.eqb_neq).
  destruct (Hl "go" eq_refl (Ne "go" "" eq_refl)) as [N D].
  split; [exact N|].
  intros route parameters I. split.
  - exact (Hr "dev" eq_refl (Ne "dev" "" eq_refl) route parameters I).
  - exact (D route parameters I).
Defined.

(** After a failed detection the user picks Python, or cancels. *)
Lemma findLanguage_autodetects_then_prompts_witness :
  (findLanguage (Sample.host None (Some "python")) Sample.blind
     (Some Sample.uri)
   = ([ ResolveQueryByLanguage ["/ws"] Sample.uri;
        Log "Could not autodetect query language. Select language manually.";
        ResolveLanguages;
        ShowQuickPick ["javascript"; "python"]
          {| placeHolder := "Select target language for your query";
             ignoreFocusOut := true |} ],
      Normal (Some "python"))
   /\ result (findLanguage (Sample.host None (Some "python")) Sample.blind
                 (Some Sample.uri)) = Normal (Some "python"))
  /\ result (findLanguage (Sample.host None None) Sample.blind
               (Some Sample.uri)) = Normal None
  /\ exists before,
       trace (findLanguage (Sample.host None None) Sample.blind
                (Some Sample.uri)) =
       (before ++
        [ ShowQuickPick ["javascript"; "python"]
            {| placeHolder := "Select target language for your query";
               ignoreFocusOut := true |};
          ShowAndLogErrorMessage
            (Text "Language not found. Language must be specified manually.") ])%list.
Proof.
  split.
  - split; [reflexivity|].
    destruct (findLanguage_autodetects_then_prompts
                (Sample.host None (Some "python")) Sample.blind
                (Some Sample.uri))
      as (_ & _ & _ & _ & P & _).
    refine (proj1 (P _ [("javascript", tt); ("python", tt)] (Some "python")
                     eq_refl eq_refl)).
    right. exists Sample.uri, (JS.mkError "no pack"). split; reflexivity.
  - destruct (findLanguage_autodetects_then_prompts
                (Sample.host None None) Sample.blind (Some Sample.uri))
      as (_ & _ & _ & _ & _ & C).
    apply C.
    + vm_compute. right. right. right. left. reflexivity.
    + reflexivity.
Defined.

(** The remote answers with an error: it is shown, and the run returns. *)
Lemma request_outcome_is_notified_witness :
  trace (runRemoteQuery (Sample.host (Some Sample.full) None)
           Sample.detecting (Sample.credentials Sample.failing)
           (Some Sample.uri))
  = (preamble Sample.uri (fst Sample.full)
     ++ Request ROUTE (parametersOf (snd Sample.full) "go" "select 1" "gho_1")
     :: [ShowAndLogErrorMessage (Caught (JS.mkError "Not Found"))])%list
  /\ exists octokit,
       Normal Sample.failing = Normal octokit
       /\ result (runRemoteQuery (Sample.host (Some Sample.full) None)
                    Sample.detecting (Sample.credentials Sample.failing)
                    (Some Sample.uri)) = Normal tt
       /\ requests (preamble Sample.uri (fst Sample.full)) = []
       /\ [ShowAndLogErrorMessage (Caught (JS.mkError "Not Found"))]
          = [ match request octokit ROUTE
                      (parametersOf (snd Sample.full) "go" "select 1" "gho_1") with
              | Normal _ =>
                  ShowAndLogInformationMessage
                    "Successfully scheduled runs. [Click here to see the progress](https://github.com/dsp-testing/qc-controller/actions)."
              | Throw error => ShowAndLogErrorMessage (Caught error)
              end ].
Proof.
  split; [reflexivity|].
  apply (request_outcome_is_notified
           (Sample.host (Some Sample.full) None) Sample.detecting
           (Sample.credentials Sample.failing) (Some Sample.uri)
           (preamble Sample.uri (fst Sample.full))
           [ShowAndLogErrorMessage (Caught (JS.mkError "Not Found"))]
           ROUTE (parametersOf (snd Sample.full) "go" "select 1" "gho_1")).
  reflexivity.
Defined.

(** A library file is not a query. *)
Lemma rejected_uri_has_no_effect_witness :
  (Some {| fsPath := "/ws/lib.qll" |} = None
   \/ exists u, Some {| fsPath := "/ws/lib.qll" |} = Some u
                /\ forall base, fsPath u <> base ++ ".ql")
  /\ runRemoteQuery (Sample.host (Some Sample.full) None) Sample.detecting
       (Sample.credentials Sample.accepting)
       (Some {| fsPath := "/ws/lib.qll" |}) = ([], Normal tt).
Proof.
  assert (N : forall base, "/ws/lib.qll" <> base ++ ".ql").
  { intros base E.
    apply (f_equal (fun s => JS.endsWith s ".ql")) in E.
    rewrite endsWith_append in E. vm_compute in E. discriminate E. }
  assert (H : Some {| fsPath := "/ws/lib.qll" |} = None
              \/ exists u, Some {| fsPath := "/ws/lib.qll" |} = Some u
                           /\ forall base, fsPath u <> base ++ ".ql").
  { right. exists {| fsPath := "/ws/lib.qll" |}. split; [reflexivity|exact N]. }
  split; [exact H|].
  exact (rejected_uri_has_no_effect
           (Sample.host (Some Sample.full) None) Sample.detecting
           (Sample.credentials Sample.accepting)
           (Some {| fsPath := "/ws/lib.qll" |}) H).
Defined.

(** The workspace holds no [query.repositories]. *)
Lemma missing_configuration_file_is_reported_witness :
  JS.endsWith (fsPath Sample.uri) ".ql" = true
  /\ pathExists (Sample.host None None) (repositoriesFileOf (fsPath Sample.uri))
     = Normal false
  /\ runRemoteQuery (Sample.host None None) Sample.detecting
       (Sample.credentials Sample.accepting) (Some Sample.uri) =
     ([ GetOctokit;
        GetToken;
        ReadFile "/ws/query.ql" "utf8";
        PathExists "/ws/query.repositories";
        ShowAndLogErrorMessage
          (Text "Missing file: '/ws/query.repositories' to specify the repositories to run against. This file must be a sibling of /ws/query.ql.") ],
      Normal tt).
Proof.
  split; [reflexivity|]. split; [reflexivity|].
  destruct (missing_configuration_file_is_reported
              (Sample.host None None) Sample.detecting
              (Sample.credentials Sample.accepting) Sample.uri
              eq_refl eq_refl) as (_ & _ & _ & R).
  exact (R Sample.accepting "gho_1" "select 1" eq_refl eq_refl eq_refl).
Defined.

(** The detection succeeds and finds no language. *)
Lemma empty_autodetection_is_silent_witness :
  (Loaded (Sample.host (Some Sample.bare) None)
     (Sample.credentials Sample.accepting) Sample.uri
     Sample.accepting "gho_1" "select 1" (fst Sample.bare) (snd Sample.bare)
   /\ JS.truthy (language (snd Sample.bare)) = false
   /\ resolveQueryByLanguage Sample.undecided ["/ws"] Sample.uri
      = Normal {| byLanguage := [] |})
  /\ findLanguage (Sample.host (Some Sample.bare) None) Sample.undecided
       (Some Sample.uri)
     = ([ ResolveQueryByLanguage ["/ws"] Sample.uri;
          Log "Detected query language: undefined" ],
        Normal None)
  /\ notifications (trace (runRemoteQuery
                             (Sample.host (Some Sample.bare) None)
                             Sample.undecided
                             (Sample.credentials Sample.accepting)
                             (Some Sample.uri))) = []
  /\ requests (trace (runRemoteQuery
                        (Sample.host (Some Sample.bare) None)
                        Sample.undecided
                        (Sample.credentials Sample.accepting)
                        (Some Sample.uri))) = [].
Proof.
  assert (L : Loaded (Sample.host (Some Sample.bare) None)
                (Sample.credentials Sample.accepting) Sample.uri
                Sample.accepting "gho_1" "select 1"
                (fst Sample.bare) (snd Sample.bare))
    by (constructor; reflexivity).
  split; [split; [exact L|split; reflexivity]|].
  destruct (empty_autodetection_is_silent
              (Sample.host (Some Sample.bare) None) Sample.undecided
              (Sample.credentials Sample.accepting) Sample.uri
              Sample.accepting "gho_1" "select 1"
              (fst Sample.bare) (snd Sample.bare)
              {| byLanguage := [] |} L eq_refl eq_refl eq_refl)
    as (F & _ & N & R).
  split; [exact F|]. split; [exact N|exact R].
Defined.

(** ** Further properties: failures, silence and order *)

Section Failures.

Variable host : Host.
Variable cliServer : CodeQLCliServer.
Variable credentials : Credentials.

Local Notation "'run'" := (runRemoteQuery host cliServer credentials).


(** X2: an empty configuration document.  When the parser yields
    [undefined], the read of [config.ref] throws: the run ends right
    after the parse, with no language resolved, no request sent and
    nothing shown. *)
Theorem undefined_configuration_throws (u : Uri) (octokit : Octokit)
  (token query text : string) :
  JS.endsWith (fsPath u) ".ql" = true ->
  getOctokit credentials = Normal octokit ->
  getToken credentials = Normal token ->
  readFile host (fsPath u) "utf8" = Normal query ->
  pathExists host (repositoriesFileOf (fsPath u)) = Normal true ->
  readFile host (repositoriesFileOf (fsPath u)) "utf8" = Normal text ->
  safeLoad host text = Normal None ->
  trace (run (Some u)) =
    [ GetOctokit;
      GetToken;
      ReadFile (fsPath u) "utf8";
      PathExists (repositoriesFileOf (fsPath u));
      ReadFile (repositoriesFileOf (fsPath u)) "utf8";
      SafeLoad text ]
  /\ exists e, result (run (Some u)) = Throw e.
Proof.
  intros Ha Ho Ht Hq Hp Hx Hc.
  unfold runRemoteQuery, rejected. rewrite Ha. cbn [negb].
  rewrite (await_returns _ _ octokit _ Ho). cbn [trace result fst snd].
  rewrite (await_returns _ _ token _ Ht). cbn [trace result fst snd].
  rewrite (await_returns _ _ query _ Hq). cbn [trace result fst snd].
  rewrite (await_returns _ _ true _ Hp). cbn [trace result fst snd negb].
  rewrite (await_returns _ _ text _ Hx). cbn [trace result fst snd].
  rewrite (await_returns _ _ None _ Hc). cbn.
  split; [reflexivity|eauto].
Qed.

(** X3: [findLanguage] only resolves the language.  Each of its calls is
    one of the CLI server, the quick pick or the log, or else the one
    error message of a cancelled pick: it fetches no credentials, touches
    no file, parses nothing and sends no request. *)
Theorem findLanguage_only_resolves (queryUri : option Uri) (e : event) :
  In e (trace (findLanguage host cliServer queryUri)) ->
  is_language_resolution e = true
  \/ e = ShowAndLogErrorMessage
           (Text "Language not found. Language must be specified manually.").
Proof.
  rewrite findLanguage_run, promptLanguage_run.
  fold (languageUri host queryUri).
  destruct (languageUri host queryUri) as [u|];
    [destruct (resolveQueryByLanguage cliServer _ u)|];
    cbn [trace fst];
    try (destruct (resolveLanguages cliServer) as [languages|]; cbv zeta;
         [destruct (showQuickPick host _ _) as [picked|];
          [destruct (JS.truthy picked)|]|]);
    cbn; intuition (subst; auto).
Qed.

(** X4: the quick pick decides.  When autodetection gave nothing and the
    languages could be listed, [findLanguage] returns exactly what the
    pick returned; the error message is shown when and only when that is
    falsy, so an item with an empty name is reported like a cancelled
    pick, and is still returned. *)
Theorem prompt_returns_the_pick (queryUri : option Uri)
  (languages : JS.Object unit) (picked : option string) :
  undetected host cliServer queryUri ->
  resolveLanguages cliServer = Normal languages ->
  showQuickPick host (JS.keys languages)
    {| placeHolder := "Select target language for your query";
       ignoreFocusOut := true |} = Normal picked ->
  result (findLanguage host cliServer queryUri) = Normal picked
  /\ notifications (trace (findLanguage host cliServer queryUri))
     = if JS.truthy picked
       then []
       else [ShowAndLogErrorMessage
               (Text "Language not found. Language must be specified manually.")].
Proof.
  intros U RL SQ.
  assert (P : promptLanguage host cliServer =
              (if JS.truthy picked
               then [ResolveLanguages;
                     ShowQuickPick (JS.keys languages) quickPickOptions]
               else [ResolveLanguages;
                     ShowQuickPick (JS.keys languages) quickPickOptions;
                     notFound],
               Normal picked)).
  { rewrite promptLanguage_run, RL. cbv zeta.
    unfold quickPickOptions at 1. rewrite SQ.
    now destruct (JS.truthy picked). }
  rewrite findLanguage_run. fold (languageUri host queryUri).
  destruct U as [-> | (u & e & -> & ->)]; rewrite P;
    now destruct (JS.truthy picked).
Qed.



Lemma notifications_app (t1 t2 : list event) :
  notifications (t1 ++ t2) = (notifications t1 ++ notifications t2)%list.
Proof. apply filter_app. Qed.

(** A run on an accepted uri loads its configuration, or throws, or
    reports something. *)
Lemma run_cases (u : Uri) :
  JS.endsWith (fsPath u) ".ql" = true ->
  (exists octokit token query text config,
     Loaded host credentials u octokit token query text config)
  \/ (exists e, result (run (Some u)) = Throw e)
  \/ notifications (trace (run (Some u))) <> [].
Proof.
  intros Ha.
  unfold runRemoteQuery, rejected. rewrite Ha. cbn [negb].
  destruct (getOctokit credentials) as [octokit|e] eqn:Ho;
    [rewrite !(await_returns _ _ octokit _ eq_refl)
    |right; left; exists e; reflexivity].
  destruct (getToken credentials) as [token|e] eqn:Ht;
    [rewrite !(await_returns _ _ token _ eq_refl)
    |right; left; exists e; reflexivity].
  destruct (readFile host (fsPath u) "utf8") as [query|e] eqn:Hq;
    [rewrite !(await_returns _ _ query _ eq_refl)
    |right; left; exists e; reflexivity].
  destruct (pathExists host (repositoriesFileOf (fsPath u))) as [[]|e] eqn:Hp;
    [rewrite !(await_returns _ _ true _ eq_refl)
    |right; right; discriminate
    |right; left; exists e; reflexivity].
  cbn [negb].
  destruct (readFile host (repositoriesFileOf (fsPath u)) "utf8")
    as [text|e] eqn:Hx;
    [rewrite !(await_returns _ _ text _ eq_refl)
    |right; left; exists e; reflexivity].
  destruct (safeLoad host text) as [[config|]|e] eqn:Hc;
    [|right; left; eexists; reflexivity
     |right; left; exists e; reflexivity].
  left. exists octokit, token, query, text, config. now constructor.
Qed.

(** X6: the one silent return.  A run on an accepted uri that returns
    without having shown anything has loaded its configuration (every
    call up to the parse returned, and the parse of the text read from the
    sibling gave [config]), [config] has no usable language, and the
    autodetection answered with no usable first language (no language at
    all, or an empty name): every other return comes with a
    notification. *)
Theorem silent_return_means_empty_detection (u : Uri) :
  JS.endsWith (fsPath u) ".ql" = true ->
  result (run (Some u)) = Normal tt ->
  notifications (trace (run (Some u))) = [] ->
  exists octokit token query text config queryInfo,
    Loaded host credentials u octokit token query text config
    /\ JS.truthy (language config) = false
    /\ resolveQueryByLanguage cliServer (getOnDiskWorkspaceFolders host) u
       = Normal queryInfo
    /\ JS.truthy (JS.first (JS.keys (byLanguage queryInfo))) = false.
Proof.
  intros Ha R N.
  destruct (run_cases u Ha)
    as [(octokit & token & query & text & config & L)|[[e E]|E]];
    [|congruence|contradiction].
  pose proof (run_loaded host cliServer credentials u octokit token query
                text config L) as E.
  cbv zeta in E. rewrite E in R, N. clear E.
  cbn [trace result fst snd] in R, N.
  rewrite !notifications_app in N.
  apply app_eq_nil in N as [_ N]. apply app_eq_nil in N as [N C].
  exists octokit, token, query, text, config. unfold resolution in *.
  destruct (JS.truthy (language config)) eqn:T.
  - exfalso. cbn [result snd ret Monad_Async] in R, C.
    destruct (language config) as [l|]; [|discriminate T].
    cbn in T. apply negb_true_iff in T. unfold closing in C. rewrite T in C.
    rewrite submit_run in C. cbn in C.
    now destruct (request octokit ROUTE _).
  - rewrite findLanguage_run in R, N, C. cbn [languageUri] in *.
    destruct (resolveQueryByLanguage cliServer _ u) as [queryInfo|e] eqn:D.
    + exists queryInfo.
      split; [exact L|]. split; [reflexivity|]. split; [reflexivity|].
      cbn [result snd] in C.
      destruct (JS.first (JS.keys (byLanguage queryInfo))) as [l|];
        [|reflexivity].
      cbn. apply negb_false_iff. unfold closing in C.
      destruct (String.eqb l ""); [reflexivity|].
      rewrite submit_run in C. cbn in C.
      now destruct (request octokit ROUTE _).
    + exfalso. cbn [result snd trace fst] in R, N, C.
      pose proof (promptLanguage_notifies host cliServer) as P.
      change (notifications (trace (promptLanguage host cliServer)) = []) in N.
      destruct (result (promptLanguage host cliServer)) as [picked|e'].
      * rewrite N in P. unfold closing in C.
        destruct picked as [l|]; [|discriminate P].
        cbn in P. destruct (String.eqb l ""); [discriminate P|].
        rewrite submit_run in C. cbn in C.
        now destruct (request octokit ROUTE _).
      * discriminate R.
Qed.

(** X7: what a request carries is never empty.  Its [ref] and its
    [language] are non-empty strings, its [token] is the one the
    credentials returned and its [query] is the text read from the query
    file. *)
Theorem request_values_are_never_empty (uri : option Uri) (route : string)
  (parameters : RequestParameters) :
  In (route, parameters) (requests (trace (run uri))) ->
  data_ref (data parameters) <> ""
  /\ data_language (data parameters) <> ""
  /\ getToken credentials = Normal (data_token (data parameters))
  /\ exists u, uri = Some u
               /\ readFile host (fsPath u) "utf8"
                  = Normal (data_query (data parameters)).
Proof.
  intros I.
  assert (H : requests (trace (run uri)) <> [])
    by (intros E; rewrite E in I; exact I).
  destruct (run_reaches_request host cliServer credentials uri H)
    as (u & octokit & token & query & text & config & _ & -> & L & _).
  destruct (run_request_data host cliServer credentials u octokit token query
              text config route parameters L I) as (l & Hl & _ & _ & ->).
  cbn [parametersOf data data_ref data_language data_token data_query].
  split; [|split; [exact Hl|split; [apply L|exists u; split; [reflexivity|apply L]]]].
  destruct (ref config) as [r|]; cbn; [|discriminate].
  destruct (String.eqb_spec r ""); [discriminate|assumption].
Qed.

Lemma notification_is_last_spec (t : list event) :
  notification_is_last t = true ->
  forall before n after,
    t = (before ++ n :: after)%list -> is_notification n = true -> after = [].
Proof.
  induction t as [|e t IH]; intros H before n after E N.
  - now destruct before.
  - cbn [notification_is_last] in H. apply andb_true_iff in H as [H1 H2].
    destruct before as [|b before]; cbn in E; injection E as -> E.
    + rewrite N in H1. cbn in H1. subst t. now destruct after.
    + now apply (IH H2 before n after).
Qed.

(** X8: a notification ends the run.  Whatever is shown to the user, an
    error or the success message, is the last call the run makes: nothing
    is read, resolved or sent after it. *)
Theorem notification_ends_the_run (uri : option Uri)
  (before after : list event) (n : event) :
  trace (run uri) = (before ++ n :: after)%list ->
  is_notification n = true ->
  after = [].
Proof.
  apply notification_is_last_spec.
  unfold_module. split_run; first [reflexivity | congruence].
Qed.

(** X9: the query uri comes before the editor.  With a uri given,
    [findLanguage] and [runRemoteQuery] do the same whatever editor is
    active; without one, [findLanguage] does what it does on the uri of the
    active editor. *)
Theorem query_uri_precedes_editor (uri : option Uri) (editor : option Uri) :
  runRemoteQuery (withActiveTextEditor host editor) cliServer credentials uri
  = run uri
  /\ (forall u,
        findLanguage (withActiveTextEditor host editor) cliServer (Some u)
        = findLanguage host cliServer (Some u))
  /\ findLanguage host cliServer None
     = findLanguage host cliServer (activeTextEditor host).
Proof.
  split; [|split].
  - destruct uri as [u|]; reflexivity.
  - reflexivity.
  - rewrite !findLanguage_run. now destruct (activeTextEditor host).
Qed.

(** X11: a detected language is submitted.  When the configuration is
    loaded without a usable language and the CLI server detects [l] first,
    the run logs it, sends the request with [l] and reports the outcome:
    no quick pick is shown. *)
Theorem detected_language_is_submitted (u : Uri) (octokit : Octokit)
  (token query text l : string) (config : Config) (queryInfo : QueryInfo) :
  Loaded host credentials u octokit token query text config ->
  JS.truthy (language config) = false ->
  resolveQueryByLanguage cliServer (getOnDiskWorkspaceFolders host) u
  = Normal queryInfo ->
  JS.first (JS.keys (byLanguage queryInfo)) = Some l ->
  l <> "" ->
  let parameters :=
    {| owner := "dsp-testing";
       repo := "qc-controller";
       data := {| data_ref := JS.orElse (ref config) "main";
                  data_language := l;
                  data_repositories := repositories config;
                  data_query := query;
                  data_token := token |} |} in
  run (Some u) =
  ([ GetOctokit;
     GetToken;
     ReadFile (fsPath u) "utf8";
     PathExists (repositoriesFileOf (fsPath u));
     ReadFile (repositoriesFileOf (fsPath u)) "utf8";
     SafeLoad text;
     ResolveQueryByLanguage (getOnDiskWorkspaceFolders host) u;
     Log ("Detected query language: " ++ l);
     Request "POST /repos/:owner/:repo/code-scanning/codeql/queries" parameters;
     match request octokit
             "POST /repos/:owner/:repo/code-scanning/codeql/queries"
             parameters with
     | Normal _ =>
         ShowAndLogInformationMessage
           "Successfully scheduled runs. [Click here to see the progress](https://github.com/dsp-testing/qc-controller/actions)."
     | Throw error => ShowAndLogErrorMessage (Caught error)
     end ],
   Normal tt).
Proof.
  intros L T D K Hl parameters.
  assert (R : resolution host cliServer u config
              = ([ResolveQueryByLanguage (getOnDiskWorkspaceFolders host) u;
                  Log ("Detected query language: " ++ l)],
                 Normal (Some l))).
  { unfold resolution. rewrite T, findLanguage_run. cbn [languageUri].
    rewrite D. cbv zeta. now rewrite K. }
  rewrite (run_submitted host cliServer credentials u octokit token query
             text l config L); [|now rewrite R|exact Hl].
  rewrite R. reflexivity.
Qed.

(** X12: a request is sent exactly when the configuration is loaded and
    the language resolves to a non-empty string (from the configuration,
    the detection or the quick pick). *)
Theorem request_is_sent_exactly_when_resolved (u : Uri) :
  requests (trace (run (Some u))) <> [] <->
  exists octokit token query text config l,
    Loaded host credentials u octokit token query text config
    /\ result (resolution host cliServer u config) = Normal (Some l)
    /\ l <> "".
Proof.
  split.
  - intros H.
    destruct (run_reaches_request host cliServer credentials (Some u) H)
      as (u' & octokit & token & query & text & config & l & E & L & R & Hl).
    injection E as <-. exists octokit, token, query, text, config, l. auto.
  - intros (octokit & token & query & text & config & l & L & R & Hl).
    rewrite (run_submitted host cliServer credentials u octokit token query
               text l config L R Hl).
    cbn [trace fst]. rewrite !requests_app.
    destruct (resolution_quiet host cliServer u config) as (-> & _).
    cbn. discriminate.
Qed.

End Failures.

(** ** The configuration file of a query *)

Section Sibling.

Lemma append_assoc (a b c : string) : (a ++ b) ++ c = a ++ (b ++ c).
Proof. induction a as [|x a IH]; cbn; [reflexivity | now rewrite IH]. Qed.

(** A string ends with [s] when its last characters, as many as [s] has,
    are [s]. *)
Lemma endsWith_tail (a b s : string) :
  String.length b = String.length s ->
  JS.endsWith (a ++ b) s = String.eqb b s.
Proof.
  intros E. unfold JS.endsWith.
  replace (JS.length s <=? JS.length (a ++ b))%Z with true
    by (symmetry; apply Z.leb_le; unfold JS.length;
        rewrite length_append; lia).
  cbn [andb]. change (JS.length s) with (Z.of_nat (String.length s)).
  rewrite js_suffix by (rewrite length_append; lia).
  rewrite length_append, <- E.
  replace (String.length a + String.length b - String.length b)
    with (String.length a) by lia.
  now rewrite substring_append_r.
Qed.

(** X10: the configuration file of a query.  For accepted paths, the
    sibling is another file than the query, it is not itself a query, and
    two queries have the same sibling only if they are the same file. *)
Theorem sibling_is_proper (queryFile : string) :
  JS.endsWith queryFile ".ql" = true ->
  repositoriesFileOf queryFile <> queryFile
  /\ JS.endsWith (repositoriesFileOf queryFile) ".ql" = false
  /\ forall other,
       JS.endsWith other ".ql" = true ->
       repositoriesFileOf other = repositoriesFileOf queryFile ->
       other = queryFile.
Proof.
  intros A.
  assert (N : JS.endsWith (repositoriesFileOf queryFile) ".ql" = false).
  { unfold repositoriesFileOf.
    change ".repositories" with (".reposito" ++ "ries").
    rewrite <- append_assoc.
    change ("ries") with ("r" ++ "ies"). rewrite <- append_assoc.
    now rewrite endsWith_tail. }
  split; [|split; [exact N|]].
  - intros E. rewrite E, A in N. discriminate N.
  - intros other B E.
    rewrite (endsWith_inv other ".ql" B), (endsWith_inv queryFile ".ql" A).
    f_equal.
    unfold repositoriesFileOf in E.
    apply (f_equal (fun s => JS.substring s 0
                               (JS.length s - JS.length ".repositories"))) in E.
    now rewrite !prefix_append in E.
Qed.

End Sibling.

(** ** The pass *)

Section Pass.

Variable host : Host.
Variable cliServer : CodeQLCliServer.
Variable credentials : Credentials.

Local Notation "'run'" := (runRemoteQuery host cliServer credentials).




End Pass.

(** ** The further properties on the sample workspace *)


Lemma undefined_configuration_throws_witness :
  (JS.endsWith (fsPath Sample.uri) ".ql" = true
   /\ safeLoad Edge.emptyDocument "" = Normal None)
  /\ trace (runRemoteQuery Edge.emptyDocument Sample.detecting
              (Sample.credentials Sample.accepting) (Some Sample.uri)) =
     [ GetOctokit;
       GetToken;
       ReadFile "/ws/query.ql" "utf8";
       PathExists "/ws/query.repositories";
       ReadFile "/ws/query.repositories" "utf8";
       SafeLoad "" ]
  /\ exists e,
       result (runRemoteQuery Edge.emptyDocument Sample.detecting
                 (Sample.credentials Sample.accepting) (Some Sample.uri))
       = Throw e.
Proof.
  split; [split; reflexivity|].
  exact (undefined_configuration_throws Edge.emptyDocument Sample.detecting
           (Sample.credentials Sample.accepting) Sample.uri Sample.accepting
           "gho_1" "select 1" ""
           eq_refl eq_refl eq_refl eq_refl eq_refl eq_refl eq_refl).
Defined.

Lemma findLanguage_only_resolves_witness :
  In ResolveLanguages
     (trace (findLanguage (Sample.host None None) Sample.blind
               (Some Sample.uri)))
  /\ (is_language_resolution ResolveLanguages = true
      \/ ResolveLanguages
         = ShowAndLogErrorMessage
             (Text "Language not found. Language must be specified manually.")).
Proof.
  assert (I : In ResolveLanguages
                (trace (findLanguage (Sample.host None None) Sample.blind
                          (Some Sample.uri)))).
  { vm_compute. right. right. left. reflexivity. }
  split; [exact I|].
  exact (findLanguage_only_resolves (Sample.host None None) Sample.blind
           (Some Sample.uri) ResolveLanguages I).
Defined.

(** The user picks an item with an empty name. *)
Lemma prompt_returns_the_pick_witness :
  (undetected (Sample.host None (Some "")) Sample.blind (Some Sample.uri)
   /\ resolveLanguages Sample.blind
      = Normal [("javascript", tt); ("python", tt)]
   /\ showQuickPick (Sample.host None (Some "")) ["javascript"; "python"]
        {| placeHolder := "Select target language for your query";
           ignoreFocusOut := true |} = Normal (Some ""))
  /\ result (findLanguage (Sample.host None (Some "")) Sample.blind
               (Some Sample.uri)) = Normal (Some "")
  /\ notifications (trace (findLanguage (Sample.host None (Some ""))
                             Sample.blind (Some Sample.uri)))
     = [ShowAndLogErrorMessage
          (Text "Language not found. Language must be specified manually.")].
Proof.
  assert (U : undetected (Sample.host None (Some "")) Sample.blind
                (Some Sample.uri)).
  { right. exists Sample.uri, (JS.mkError "no pack"). split; reflexivity. }
  split; [split; [exact U|split; reflexivity]|].
  exact (prompt_returns_the_pick (Sample.host None (Some "")) Sample.blind
           (Some Sample.uri) [("javascript", tt); ("python", tt)] (Some "")
           U eq_refl eq_refl).
Defined.


(** The first detected language has an empty name. *)
Lemma silent_return_means_empty_detection_witness :
  (JS.endsWith (fsPath Sample.uri) ".ql" = true
   /\ result (runRemoteQuery (Sample.host (Some Sample.bare) None)
                 Edge.nameless (Sample.credentials Sample.accepting)
                 (Some Sample.uri)) = Normal tt
   /\ notifications (trace (runRemoteQuery
                               (Sample.host (Some Sample.bare) None)
                               Edge.nameless
                               (Sample.credentials Sample.accepting)
                               (Some Sample.uri))) = [])
  /\ exists octokit token query text config queryInfo,
       Loaded (Sample.host (Some Sample.bare) None)
         (Sample.credentials Sample.accepting) Sample.uri
         octokit token query text config
       /\ JS.truthy (language config) = false
       /\ resolveQueryByLanguage Edge.nameless ["/ws"] Sample.uri
          = Normal queryInfo
       /\ JS.truthy (JS.first (JS.keys (byLanguage queryInfo))) = false.
Proof.
  split; [split; [reflexivity|split; reflexivity]|].
  exact (silent_return_means_empty_detection
           (Sample.host (Some Sample.bare) None) Edge.nameless
           (Sample.credentials Sample.accepting) Sample.uri
           eq_refl eq_refl eq_refl).
Defined.

Lemma request_values_are_never_empty_witness :
  In (ROUTE, parametersOf (snd Sample.bare) "javascript" "select 1" "gho_1")
     (requests (trace (runRemoteQuery (Sample.host (Some Sample.bare) None)
                         Sample.detecting
                         (Sample.credentials Sample.accepting)
                         (Some Sample.uri))))
  /\ "main" <> ""
  /\ "javascript" <> ""
  /\ getToken (Sample.credentials Sample.accepting) = Normal "gho_1".
Proof.
  assert (I : In (ROUTE,
                  parametersOf (snd Sample.bare) "javascript" "select 1" "gho_1")
                (requests (trace (runRemoteQuery
                                    (Sample.host (Some Sample.bare) None)
                                    Sample.detecting
                                    (Sample.credentials Sample.accepting)
                                    (Some Sample.uri))))).
  { vm_compute. left. reflexivity. }
  split; [exact I|].
  destruct (request_values_are_never_empty
              (Sample.host (Some Sample.bare) None) Sample.detecting
              (Sample.credentials Sample.accepting) (Some Sample.uri)
              ROUTE
              (parametersOf (snd Sample.bare) "javascript" "select 1" "gho_1")
              I) as (R & G & T & _).
  split; [exact R|split; [exact G|exact T]].
Defined.

(** The error of a failed request is the last call. *)
Lemma notification_ends_the_run_witness :
  (trace (runRemoteQuery (Sample.host (Some Sample.full) None)
            Sample.detecting (Sample.credentials Sample.failing)
            (Some Sample.uri))
   = (preamble Sample.uri (fst Sample.full)
      ++ [Request ROUTE (parametersOf (snd Sample.full) "go" "select 1" "gho_1")]
      ++ ShowAndLogErrorMessage (Caught (JS.mkError "Not Found")) :: [])%list
   /\ is_notification
        (ShowAndLogErrorMessage (Caught (JS.mkError "Not Found"))) = true)
  /\ @nil event = [].
Proof.
  split; [split; reflexivity|].
  exact (notification_ends_the_run
           (Sample.host (Some Sample.full) None) Sample.detecting
           (Sample.credentials Sample.failing) (Some Sample.uri)
           (preamble Sample.uri (fst Sample.full)
            ++ [Request ROUTE
                  (parametersOf (snd Sample.full) "go" "select 1" "gho_1")])%list
           [] (ShowAndLogErrorMessage (Caught (JS.mkError "Not Found")))
           eq_refl eq_refl).
Defined.

Lemma detected_language_is_submitted_witness :
  (Loaded (Sample.host (Some Sample.bare) None)
     (Sample.credentials Sample.accepting) Sample.uri
     Sample.accepting "gho_1" "select 1" (fst Sample.bare) (snd Sample.bare)
   /\ JS.first (JS.keys [("javascript", tt)]) = Some "javascript"
   /\ "javascript" <> "")
  /\ runRemoteQuery (Sample.host (Some Sample.bare) None) Sample.detecting
       (Sample.credentials Sample.accepting) (Some Sample.uri) =
     ([ GetOctokit;
        GetToken;
        ReadFile "/ws/query.ql" "utf8";
        PathExists "/ws/query.repositories";
        ReadFile "/ws/query.repositories" "utf8";
        SafeLoad "{repositories: [a/b]}";
        ResolveQueryByLanguage ["/ws"] Sample.uri;
        Log "Detected query language: javascript";
        Request "POST /repos/:owner/:repo/code-scanning/codeql/queries"
          {| owner := "dsp-testing";
             repo := "qc-controller";
             data := {| data_ref := "main";
                        data_language := "javascript";
                        data_repositories := ["a/b"];
                        data_query := "select 1";
                        data_token := "gho_1" |} |};
        ShowAndLogInformationMessage
          "Successfully scheduled runs. [Click here to see the progress](https://github.com/dsp-testing/qc-controller/actions)." ],
      Normal tt).
Proof.
  assert (L : Loaded (Sample.host (Some Sample.bare) None)
                (Sample.credentials Sample.accepting) Sample.uri
                Sample.accepting "gho_1" "select 1"
                (fst Sample.bare) (snd Sample.bare))
    by (constructor; reflexivity).
  assert (N : "javascript" <> "") by discriminate.
  split; [split; [exact L|split; [reflexivity|exact N]]|].
  exact (detected_language_is_submitted
           (Sample.host (Some Sample.bare) None) Sample.detecting
           (Sample.credentials Sample.accepting) Sample.uri Sample.accepting
           "gho_1" "select 1" (fst Sample.bare) "javascript" (snd Sample.bare)
           {| byLanguage := [("javascript", tt)] |}
           L eq_refl eq_refl eq_refl N).
Defined.

Lemma request_is_sent_exactly_when_resolved_witness :
  (Loaded (Sample.host (Some Sample.full) None)
     (Sample.credentials Sample.failing) Sample.uri
     Sample.failing "gho_1" "select 1" (fst Sample.full) (snd Sample.full)
   /\ result (resolution (Sample.host (Some Sample.full) None)
                Sample.detecting Sample.uri (snd Sample.full))
      = Normal (Some "go")
   /\ "go" <> "")
  /\ requests (trace (runRemoteQuery (Sample.host (Some Sample.full) None)
                        Sample.detecting (Sample.credentials Sample.failing)
                        (Some Sample.uri))) <> [].
Proof.
  assert (L : Loaded (Sample.host (Some Sample.full) None)
                (Sample.credentials Sample.failing) Sample.uri
                Sample.failing "gho_1" "select 1"
                (fst Sample.full) (snd Sample.full))
    by (constructor; reflexivity).
  assert (N : "go" <> "") by discriminate.
  split; [split; [exact L|split; [reflexivity|exact N]]|].
  apply (proj2 (request_is_sent_exactly_when_resolved
                  (Sample.host (Some Sample.full) None) Sample.detecting
                  (Sample.credentials Sample.failing) Sample.uri)).
  exists Sample.failing, "gho_1", "select 1", (fst Sample.full),
    (snd Sample.full), "go".
  split; [exact L|split; [reflexivity|exact N]].
Defined.

Lemma sibling_is_proper_witness :
  JS.endsWith "/ws/query.ql" ".ql" = true
  /\ repositoriesFileOf "/ws/query.ql" <> "/ws/query.ql"
  /\ JS.endsWith (repositoriesFileOf "/ws/query.ql") ".ql" = false.
Proof.
  split; [reflexivity|].
  destruct (sibling_is_proper "/ws/query.ql" eq_refl) as (D & N & _).
  split; [exact D|exact N].
Defined.


